(** * Avatar models (app/avatar/models.py): a shallow embedding

    The module is Django glue over image libraries.  The embedding keeps
    the control flow of every method (guards, [try]/[except Exception],
    order of the calls) and takes what the module imports (the converters,
    the perceptual hash, the SVG composer, the storage naming) as the
    fields of one interface, [Library].

    Effects are explicit: a method is a function of the [World] (the table
    behind [BaseAvatar.objects], the lookups issued, the converter calls,
    the files written, the log records, the random bytes drawn) that returns
    a value or a raised exception together with the new world. *)

From Stdlib Require Import List String Ascii Bool Arith NArith ZArith QArith Lia.
From Stdlib Require Import DecimalString.
Import ListNotations.

#[local] Set Warnings "-register-all".

Close Scope Q_scope.

Open Scope list_scope.
Open Scope string_scope.

(** ** Python values *)

Definition bytes := list Byte.byte.

(** [str(n)] of a non-negative int. *)
Definition str_of_nat (n : nat) : string :=
  NilZero.string_of_uint (Nat.to_uint n).

(** Truthiness of a [str]. *)
Definition str_bool (s : string) : bool :=
  negb (s =? "").

(** [x in xs] for a list of strings. *)
Definition str_in (x : string) (xs : list string) : bool :=
  existsb (String.eqb x) xs.

(** Exceptions.  [except Exception] catches every class but the ones that
    derive from [BaseException] only ([KeyboardInterrupt], [SystemExit],
    [GeneratorExit]). *)
Inductive exn_class : Type :=
| AttributeError
| ValueError
| OtherException (class_name : string)
| NonException (class_name : string).

Record exn : Type := Exn { exn_cls : exn_class; exn_msg : string }.

Definition is_Exception (e : exn) : bool :=
  match exn_cls e with
  | NonException _ => false
  | _ => true
  end.

Inductive result (A : Type) : Type :=
| Ok (a : A)
| Raise (e : exn).
Arguments Ok {A} a.
Arguments Raise {A} e.

Definition is_ok {A} (r : result A) : bool :=
  match r with Ok _ => true | Raise _ => false end.

(** JSON values as Python's [json] decodes them; a [dict] keeps its
    iteration order, so it is an association list. *)
Inductive json : Type :=
| JNull
| JBool (b : bool)
| JInt (n : Z)
| JFloat (mantissa exponent : Z)
| JStr (s : string)
| JArr (items : list json)
| JObj (entries : list (string * json)).

(** [d.get(k)] on the entries of a dict. *)
Fixpoint dict_get (d : list (string * json)) (k : string) : option json :=
  match d with
  | [] => None
  | (k', v) :: d' => if k' =? k then Some v else dict_get d' k
  end.

(** [type(v).__name__]. *)
Definition py_type_name (v : json) : string :=
  match v with
  | JNull => "NoneType"
  | JBool _ => "bool"
  | JInt _ => "int"
  | JFloat _ _ => "float"
  | JStr _ => "str"
  | JArr _ => "list"
  | JObj _ => "dict"
  end.

(** The exception of [v.attr] on a value without that attribute. *)
Definition no_attribute (type_name attr : string) : exn :=
  Exn AttributeError ("'" ++ type_name ++ "' object has no attribute '" ++ attr ++ "'").

(** [v.get(k)]: only a dict has the attribute. *)
Definition json_get (v : json) (k : string) : result (option json) :=
  match v with
  | JObj d => Ok (dict_get d k)
  | _ => Raise (no_attribute (py_type_name v) "get")
  end.

(** [v.items()]. *)
Definition json_items (v : json) : result (list (string * json)) :=
  match v with
  | JObj d => Ok d
  | _ => Raise (no_attribute (py_type_name v) "items")
  end.

Definition rbind {A B} (r : result A) (k : A -> result B) : result B :=
  match r with
  | Ok a => k a
  | Raise e => Raise e
  end.

(** ** Records of the models *)

Record Profile : Type := mkProfile { profile_pk : nat; handle : string }.

(** A file with its name: a [ContentFile], or what a file field holds. *)
Record File : Type := mkFile { fname : string; fdata : bytes }.

(** A [FieldFile]: [None] when the column is null. *)
Definition FieldFile : Type := option File.

(** [bool(field_file)] is [bool(self.name)]. *)
Definition ff_bool (f : FieldFile) : bool :=
  match f with
  | Some x => str_bool (fname x)
  | None => false
  end.

Definition no_file (field : string) : exn :=
  Exn ValueError ("The '" ++ field ++ "' attribute has no file associated with it.").

(** [field_file._require_file()]: the field must have a name. *)
Definition require_file (field : string) (f : FieldFile) : result File :=
  match f with
  | Some x => if str_bool (fname x) then Ok x else Raise (no_file field)
  | None => Raise (no_file field)
  end.

(** [field_file.read()] of a field that was assigned a [ContentFile]: the
    content is at hand and the storage is not asked. *)
Definition ff_read (field : string) (f : FieldFile) : result bytes :=
  match require_file field f with
  | Ok x => Ok (fdata x)
  | Raise e => Raise e
  end.

Record BaseAvatar : Type := mkBaseAvatar {
  id : option nat;
  active : bool;
  profile : option Profile;
  svg : FieldFile;
  png : FieldFile;
  hash : string
}.

Record CustomAvatar : Type := mkCustomAvatar {
  custom_base : BaseAvatar;
  recommended_by_staff : bool;
  config : json
}.

Record SocialAvatar : Type := mkSocialAvatar { social_base : BaseAvatar }.

(** What a method hands back: a row of [BaseAvatar.objects] or an instance
    of one of the two subclasses. *)
Inductive avatar_obj : Type :=
| Base (b : BaseAvatar)
| Custom (c : CustomAvatar)
| Social (s : SocialAvatar).

Definition base_of (o : avatar_obj) : BaseAvatar :=
  match o with
  | Base b => b
  | Custom c => custom_base c
  | Social s => social_base s
  end.

Definition ICON_SIZE : nat * nat := (215, 215).

(** [cls(profile=..., hash=...)]: the other fields take their defaults. *)
Definition new_base (p : option Profile) (h : string) : BaseAvatar :=
  {| id := None; active := false; profile := p; svg := None; png := None; hash := h |}.

Definition set_svg (f : FieldFile) (a : BaseAvatar) : BaseAvatar :=
  {| id := id a; active := active a; profile := profile a;
     svg := f; png := png a; hash := hash a |}.

Definition set_png (f : FieldFile) (a : BaseAvatar) : BaseAvatar :=
  {| id := id a; active := active a; profile := profile a;
     svg := svg a; png := f; hash := hash a |}.

Definition set_hash (h : string) (a : BaseAvatar) : BaseAvatar :=
  {| id := id a; active := active a; profile := profile a;
     svg := svg a; png := png a; hash := h |}.

Definition set_id (i : option nat) (a : BaseAvatar) : BaseAvatar :=
  {| id := i; active := active a; profile := profile a;
     svg := svg a; png := png a; hash := hash a |}.

Definition custom_with (f : BaseAvatar -> BaseAvatar) (c : CustomAvatar) : CustomAvatar :=
  {| custom_base := f (custom_base c);
     recommended_by_staff := recommended_by_staff c;
     config := config c |}.

(** ** svgutils figures *)

Inductive Component (E : Type) : Type :=
| Line (points : list (Q * Q)) (width : string) (color : string)
| Layer (e : E).
Arguments Line {E} points width color.
Arguments Layer {E} e.

Record Figure (E : Type) : Type := mkFigure {
  fig_width : nat;
  fig_height : nat;
  fig_elements : list (Component E)
}.
Arguments mkFigure {E} _ _ _.
Arguments fig_width {E} _.
Arguments fig_height {E} _.
Arguments fig_elements {E} _.

(** ** The world *)

Inductive level : Type := ERROR | WARNING.

Inductive converter : Type := Wand | Img.

Record conv_call : Type := mkCall {
  call_converter : converter;
  call_source : FieldFile;
  call_input_fmt : string;
  call_output_fmt : string
}.

Record World : Type := mkWorld {
  rows : list BaseAvatar;               (* BaseAvatar.objects, in insertion order *)
  next_pk : nat;                        (* the key the next insert gets *)
  queries : list (option Profile * string);  (* filter(profile=, hash=) issued so far *)
  calls : list conv_call;               (* converter invocations so far *)
  saved : list (string * bytes);        (* FieldFile.save(name, content) so far *)
  log : list (level * string);          (* logger records so far *)
  drawn : nat                           (* random bytes consumed so far *)
}.

Definition M (A : Type) : Type := World -> result A * World.

Definition ret {A} (a : A) : M A := fun w => (Ok a, w).

Definition bind {A B} (m : M A) (k : A -> M B) : M B :=
  fun w =>
    match m w with
    | (Ok a, w') => k a w'
    | (Raise e, w') => (Raise e, w')
    end.

Definition lift {A} (r : result A) : M A := fun w => (r, w).

(** [try: body / except Exception as e: handler e]. *)
Definition try_except {A} (body : M A) (handler : exn -> M A) : M A :=
  fun w =>
    match body w with
    | (Ok a, w') => (Ok a, w')
    | (Raise e, w') => if is_Exception e then handler e w' else (Raise e, w')
    end.

Declare Scope py_scope.
Delimit Scope py_scope with py.
Notation "x <- m ;; k" := (bind m (fun x => k))
  (at level 61, m at next level, right associativity) : py_scope.
Notation "m ;;; k" := (bind m (fun _ => k))
  (at level 61, right associativity) : py_scope.
Open Scope py_scope.

Definition logger (l : level) (msg : string) : M unit :=
  fun w =>
    (Ok tt,
     {| rows := rows w; next_pk := next_pk w; queries := queries w; calls := calls w;
        saved := saved w; log := log w ++ [(l, msg)]; drawn := drawn w |}).

(** ** secrets.token_hex *)

Definition hex_digit (n : N) : ascii :=
  match String.get (N.to_nat n) "0123456789abcdef" with
  | Some c => c
  | None => "0"%char
  end.

Fixpoint hexlify (bs : list N) : string :=
  match bs with
  | [] => ""
  | b :: bs' =>
      String (hex_digit ((b mod 256) / 16))
        (String (hex_digit ((b mod 256) mod 16)) (hexlify bs'))
  end.

Definition is_hex_char (c : ascii) : bool :=
  existsb (Ascii.eqb c) (list_ascii_of_string "0123456789abcdef").

(** A token of [n] random bytes: [2 * n] hexadecimal characters. *)
Definition is_hex_token (n : nat) (s : string) : Prop :=
  String.length s = 2 * n /\ forallb is_hex_char (list_ascii_of_string s) = true.

(** ** What the module imports

    [.utils] ([build_avatar_component], [convert_img], [convert_wand],
    [dhash], [get_temp_image_file], [get_upload_filename]), PIL, svgutils,
    the storage backend and the entropy source.  Each call either returns
    or raises; the converters may also return [None]. *)
Class Library : Type := {
  Image : Type;
  Element : Type;
  dhash : Image -> result string;
  image_open : bytes -> result Image;                  (* Image.open(BytesIO(b)) *)
  get_temp_image_file : Image -> result bytes;         (* ...(img).getvalue() *)
  convert_wand : FieldFile -> string -> string -> result (option bytes);
  convert_img : FieldFile -> string -> string -> result (option bytes);
  build_avatar_component : string -> nat * nat -> result Element;
  figure_save : Figure Element -> result bytes;        (* Figure.save, read back *)
  get_upload_filename : BaseAvatar -> string -> string; (* upload_to *)
  (* storage.save: the name a path is stored under, given the files saved so
     far and the position in the random stream (a taken name is varied with
     random characters), and the number of random bytes that took *)
  storage_name : list (string * bytes) -> nat -> string -> string * nat;
  (* fetching the content of a named field: nothing when the file is cached
     on the field or the storage opens it, else what storage.open raises *)
  file_open : File -> option exn;
  storage_url : string -> string;
  py_repr : json -> string;                            (* str() of numbers, bools, containers *)
  urandom : nat -> N                                   (* the i-th random byte ever drawn *)
}.

Section Models.

Context {L : Library}.

(** [str(v)] inside an f-string; [None] is also what [dict.get] gives for
    a missing key. *)
Definition py_str (v : option json) : string :=
  match v with
  | None => "None"
  | Some JNull => "None"
  | Some (JStr s) => s
  | Some v' => py_repr v'
  end.

(** [str(self.id)]. *)
Definition str_of_id (i : option nat) : string :=
  match i with
  | None => "None"
  | Some n => str_of_nat n
  end.

Definition token_hex (n : nat) : M string :=
  fun w =>
    (Ok (hexlify (map (fun i => urandom (drawn w + i)) (seq 0 n))),
     {| rows := rows w; next_pk := next_pk w; queries := queries w; calls := calls w;
        saved := saved w; log := log w; drawn := drawn w + n |}).

(** The converters, with the invocation recorded. *)
Definition call_converter_of (c : converter) (source : FieldFile) (input_fmt output_fmt : string)
  : M (option bytes) :=
  fun w =>
    ((match c with
      | Wand => convert_wand source input_fmt output_fmt
      | Img => convert_img source input_fmt output_fmt
      end),
     {| rows := rows w; next_pk := next_pk w; queries := queries w;
        calls := calls w ++ [mkCall c source input_fmt output_fmt];
        saved := saved w; log := log w; drawn := drawn w |}).

(** *** The ORM *)

(** [profile=] compares the foreign key; [None] selects the null rows. *)
Definition same_profile (p q : option Profile) : bool :=
  match p, q with
  | None, None => true
  | Some a, Some b => (profile_pk a =? profile_pk b)%nat
  | _, _ => false
  end.

Definition matches (p : option Profile) (h : string) (row : BaseAvatar) : bool :=
  same_profile p (profile row) && (hash row =? h)%string.

Definition pk_of (row : BaseAvatar) : nat :=
  match id row with
  | Some n => n
  | None => 0
  end.

(** [.last()] of an unordered queryset: the row with the greatest key. *)
Definition last_by_pk (qs : list BaseAvatar) : option BaseAvatar :=
  fold_left
    (fun acc row =>
       match acc with
       | None => Some row
       | Some best => if (pk_of best <=? pk_of row)%nat then Some row else Some best
       end)
    qs None.

(** [BaseAvatar.objects.filter(profile=p, hash=h).last()]. *)
Definition objects_filter_last (p : option Profile) (h : string) : M (option BaseAvatar) :=
  fun w =>
    (Ok (last_by_pk (filter (matches p h) (rows w))),
     {| rows := rows w; next_pk := next_pk w; queries := queries w ++ [(p, h)];
        calls := calls w; saved := saved w; log := log w; drawn := drawn w |}).

(** [instance.save()] of a new instance: the row gets the next key. *)
Definition model_save (a : BaseAvatar) : M BaseAvatar :=
  fun w =>
    let a' := set_id (Some (next_pk w)) a in
    (Ok a',
     {| rows := rows w ++ [a']; next_pk := S (next_pk w); queries := queries w;
        calls := calls w; saved := saved w; log := log w; drawn := drawn w |}).

(** What the storage makes of [field_file.save(name, ...)] in the world
    [w]: the stored name and the random bytes drawn to find it. *)
Definition stored_as (w : World) (a : BaseAvatar) (name : string) : string * nat :=
  storage_name (saved w) (drawn w) (get_upload_filename a name).

(** [field_file.save(name, content, save=False)]: the content goes to the
    storage and the field takes the stored name. *)
Definition storage_save (a : BaseAvatar) (name : string) (content : bytes) : M File :=
  fun w =>
    (Ok (mkFile (fst (stored_as w a name)) content),
     {| rows := rows w; next_pk := next_pk w; queries := queries w; calls := calls w;
        saved := saved w ++ [(name, content)]; log := log w;
        drawn := drawn w + snd (stored_as w a name) |}).

(** *** BaseAvatar *)

(** [field_file.file]: after [_require_file], a file that is not cached on
    the field is opened in the storage, which raises when it is not
    there. *)
Definition ff_file (field : string) (f : FieldFile) : result File :=
  rbind (require_file field f) (fun x =>
  match file_open x with
  | None => Ok x
  | Some e => Raise e
  end).

(** [field_file.url]: the name is required, the file is not opened. *)
Definition ff_url (field : string) (f : FieldFile) : result string :=
  match require_file field f with
  | Ok x => Ok (storage_url (fname x))
  | Raise e => Raise e
  end.

Definition avatar_url (self : BaseAvatar) : result string :=
  if ff_bool (png self) then ff_url "png" (png self)
  else if ff_bool (svg self) then ff_url "svg" (svg self)
  else Ok "".

Definition calculate_hash (image : Image) : result string :=
  dhash image.

Definition find_similar (self : BaseAvatar) : M (option BaseAvatar) :=
  if str_bool (hash self) then objects_filter_last (profile self) (hash self)
  else ret None.

Definition convert_field (self : BaseAvatar) (source : FieldFile) (input_fmt output_fmt : string)
  : M (option File) :=
  try_except
    (tmpfile_io <- (if output_fmt =? "svg"
                    then call_converter_of Wand source input_fmt output_fmt
                    else call_converter_of Img source input_fmt output_fmt) ;;
     png_name <- (match profile self with
                  | Some p => ret (handle p)
                  | None => token_hex 8
                  end) ;;
     match tmpfile_io with
     | Some b => ret (Some (mkFile (png_name ++ "." ++ output_fmt) b))
     | None => ret None
     end)
    (fun e =>
       logger ERROR ("Error: (" ++ exn_msg e ++ ") - Avatar PK: (" ++ str_of_id (id self) ++ ")") ;;;
       ret None).

Definition determine_response (self : BaseAvatar) (use_svg : bool) : result (File * string) :=
  if negb use_svg then
    match ff_file "png" (png self) with
    | Ok f => Ok (f, "image/png")
    | Raise e => Raise e
    end
  else
    match ff_file "svg" (svg self) with
    | Ok f => Ok (f, "image/svg+xml")
    | Raise e => Raise e
    end.

(** *** CustomAvatar *)

Definition excluded_keys : list string :=
  ["Background"; "ClothingColor"; "HairColor"; "SkinTone"].

(** [icon_height / 2]: true division. *)
Definition half (n : nat) : Q := Qmake (Z.of_nat n) 2.

Definition coord (n : nat) : Q := inject_Z (Z.of_nat n).

(** The [Line] that opens the component list. *)
Definition background_line (payload_background : option json) : Component Element :=
  Line [(coord 0, half (snd ICON_SIZE)); (coord (fst ICON_SIZE), half (snd ICON_SIZE))]
       (str_of_nat (snd ICON_SIZE) ++ "px")
       ("#" ++ py_str payload_background).

(** [f"{v.get('component_type')}/{v.get('svg_asset')}"]. *)
Definition component_path (v : json) : result string :=
  rbind (json_get v "component_type") (fun component_type =>
  rbind (json_get v "svg_asset") (fun svg_asset =>
  Ok (py_str component_type ++ "/" ++ py_str svg_asset))).

(** The [for k, v in payload.items()] loop over [components]. *)
Fixpoint append_components (items : list (string * json)) (components : list (Component Element))
  : result (list (Component Element)) :=
  match items with
  | [] => Ok components
  | (k, v) :: items' =>
      if negb (str_in k excluded_keys) then
        rbind (component_path v) (fun path =>
        rbind (build_avatar_component path ICON_SIZE) (fun c =>
        append_components items' (components ++ [Layer c])))
      else append_components items' components
  end.

(** The figure [create_from_config] composes, before it is written out. *)
Definition compose_figure (payload : json) : result (Figure Element) :=
  let icon_width := fst ICON_SIZE in
  let icon_height := snd ICON_SIZE in
  rbind (json_get payload "Background") (fun background =>
  rbind (json_items payload) (fun items =>
  rbind (append_components items [background_line background]) (fun components =>
  Ok (mkFigure icon_width icon_height components)))).

Definition create_from_config (self : CustomAvatar) : M CustomAvatar :=
  avatar <- lift (compose_figure (config self)) ;;
  content <- lift (figure_save avatar) ;;
  svg_name <- (match profile (custom_base self) with
               | Some p => if str_bool (handle p) then ret (handle p) else token_hex 8
               | None => token_hex 8
               end) ;;
  f <- storage_save (custom_base self) (svg_name ++ ".svg") content ;;
  ret (custom_with (set_svg (Some f)) self).

(** The body of the [try] in [create], with the local [avatar] as it is
    when the body is left: by [return similar_avatar] ([Ok (Some _)]), at
    its end ([Ok None]) or by an exception. *)
Definition create_try (avatar : CustomAvatar) (w : World)
  : result (option BaseAvatar) * CustomAvatar * World :=
  match convert_field (custom_base avatar) (svg (custom_base avatar)) "svg" "png" w with
  | (Raise e, w1) => (Raise e, avatar, w1)
  | (Ok avatar_png, w1) =>
      let avatar1 := custom_with (set_png avatar_png) avatar in
      match rbind (ff_read "png" (png (custom_base avatar1))) (fun data =>
            rbind (image_open data) calculate_hash) with
      | Raise e => (Raise e, avatar1, w1)
      | Ok h =>
          let avatar2 := custom_with (set_hash h) avatar1 in
          match find_similar (custom_base avatar2) w1 with
          | (Raise e, w2) => (Raise e, avatar2, w2)
          | (Ok similar_avatar, w2) => (Ok similar_avatar, avatar2, w2)
          end
      end
  end.

Definition create (profile : option Profile) (config_json : json) : M avatar_obj :=
  fun w =>
    let avatar := mkCustomAvatar (new_base profile "") false config_json in
    match create_from_config avatar w with
    | (Raise e, w0) => (Raise e, w0)
    | (Ok avatar0, w0) =>
        match create_try avatar0 w0 with
        | (Ok (Some similar_avatar), _, w1) => (Ok (Base similar_avatar), w1)
        | (Ok None, avatar1, w1) => (Ok (Custom avatar1), w1)
        | (Raise e, avatar1, w1) =>
            if is_Exception e then
              (logger WARNING "There was error during avatar conversion" ;;;
               ret (Custom avatar1)) w1
            else (Raise e, w1)
        end
    end.

Definition select (self : CustomAvatar) (profile : option Profile) : M avatar_obj :=
  let new_avatar :=
    mkCustomAvatar
      {| id := None; active := false; profile := profile;
         svg := svg (custom_base self); png := png (custom_base self);
         hash := hash (custom_base self) |}
      false (config self) in
  similar_avatar <- find_similar (custom_base new_avatar) ;;
  match similar_avatar with
  | Some s => ret (Base s)
  | None => ret (Custom new_avatar)
  end.

Definition to_dict (self : CustomAvatar) : json := config self.

(** *** SocialAvatar *)

(** [profile.handle]. *)
Definition profile_handle (p : option Profile) : result string :=
  match p with
  | Some x => Ok (handle x)
  | None => Raise (Exn AttributeError "'NoneType' object has no attribute 'handle'")
  end.

Definition github_avatar (profile : option Profile) (avatar_img : Image) : M avatar_obj :=
  avatar_hash <- lift (calculate_hash avatar_img) ;;
  let avatar := new_base profile avatar_hash in
  similar_avatar <- find_similar avatar ;;
  match similar_avatar with
  | Some s => ret (Base s)
  | None =>
      name <- lift (profile_handle profile) ;;
      content <- lift (get_temp_image_file avatar_img) ;;
      f <- storage_save avatar (name ++ ".png") content ;;
      avatar1 <- model_save (set_png (Some f) avatar) ;;
      avatar_svg <- convert_field avatar1 (png avatar1) "png" "svg" ;;
      ret (Social (mkSocialAvatar (set_svg avatar_svg avatar1)))
  end.

End Models.

(** ** A concrete library and a concrete world, to run the model on

    The converters answer [converted] and the hash answers [hashed]
    whatever they are given; the storage has lost one file and varies a
    taken name; everything else succeeds. *)

(** [str()] of the bools and ints; the samples hold no floats or containers
    outside the layer entries, and those get a marker. *)
Definition sample_py_repr (v : json) : string :=
  match v with
  | JBool true => "True"
  | JBool false => "False"
  | JInt (Z.pos p) => str_of_nat (Pos.to_nat p)
  | JInt Z0 => "0"
  | JInt (Z.neg p) => "-" ++ str_of_nat (Pos.to_nat p)
  | _ => "<object>"
  end.

Definition sample_urandom (i : nat) : N := (N.of_nat i * 37 + 11)%N.

(** A name cut at its last dot, when that dot follows the last slash. *)
Fixpoint split_ext (s : string) : string * string :=
  match s with
  | EmptyString => ("", "")
  | String c rest =>
      let (root, ext) := split_ext rest in
      if (ext =? "") && (Ascii.eqb c "."%char) && negb (existsb (Ascii.eqb "/"%char)
                                                          (list_ascii_of_string rest))
      then ("", s)
      else (String c root, ext)
  end.

(** A storage that keeps a free name and varies a taken one with seven
    random characters before the extension. *)
Definition sample_storage_name (saved : list (string * bytes)) (drawn : nat) (path : string)
  : string * nat :=
  if existsb (fun nc => ("avatars/" ++ fst nc) =? path) saved then
    let (root, ext) := split_ext path in
    (root ++ "_" ++ substring 0 7 (hexlify (map (fun i => sample_urandom (drawn + i)) (seq 0 4)))
          ++ ext, 4)
  else (path, 0).

(** A storage from which one file is gone. *)
Definition sample_file_open (x : File) : option exn :=
  if fname x =? "avatars/gone.svg"
  then Some (Exn (OtherException "FileNotFoundError") "No such file or directory")
  else None.

Definition sample_library (converted : result (option bytes)) (hashed : result string) : Library :=
  {| Image := bytes;
     Element := string;
     dhash := fun _ => hashed;
     image_open := fun b => Ok b;
     get_temp_image_file := fun img => Ok img;
     convert_wand := fun _ _ _ => converted;
     convert_img := fun _ _ _ => converted;
     build_avatar_component := fun path _ => Ok path;
     figure_save := fun fig => Ok (repeat Byte.x3c (List.length (fig_elements fig)));
     get_upload_filename := fun _ name => "avatars/" ++ name;
     storage_name := sample_storage_name;
     file_open := sample_file_open;
     storage_url := fun name => "/media/" ++ name;
     py_repr := sample_py_repr;
     urandom := sample_urandom |}.

Definition png_bytes : bytes := [Byte.x89; Byte.x50].

(** Every call succeeds. *)
Definition converting_library : Library :=
  sample_library (Ok (Some png_bytes)) (Ok "c3d4").

(** The conversion succeeds and the hash computation raises. *)
Definition unhashable_library : Library :=
  sample_library (Ok (Some png_bytes))
                 (Raise (Exn (OtherException "OSError") "cannot identify image file")).


(** The converters raise. *)
Definition raising_library : Library :=
  sample_library (Raise (Exn (OtherException "WandError") "bad blob")) (Ok "c3d4").

Definition empty_world : World :=
  {| rows := []; next_pk := 1; queries := []; calls := []; saved := []; log := []; drawn := 0 |}.

(** The world after [alice]'s first generated SVG was saved. *)
Definition saved_world : World :=
  {| rows := []; next_pk := 1; queries := []; calls := [];
     saved := [("alice.svg", [Byte.x3c; Byte.x3c; Byte.x3c])]; log := []; drawn := 0 |}.

Definition alice : Profile := mkProfile 7 "alice".

Definition bob : Profile := mkProfile 9 "bob".

Definition alice_first : BaseAvatar :=
  mkBaseAvatar (Some 1) true (Some alice) None None "c3d4".

Definition nobody_row : BaseAvatar :=
  mkBaseAvatar (Some 2) false None None None "c3d4".

Definition alice_last : BaseAvatar :=
  mkBaseAvatar (Some 3) false (Some alice)
               (Some (mkFile "avatars/alice.svg" [Byte.x3c]))
               (Some (mkFile "avatars/alice.png" [Byte.x89])) "c3d4".

(** A stored avatar whose SVG is no longer in the storage. *)
Definition gone_row : BaseAvatar :=
  mkBaseAvatar (Some 6) false (Some alice)
               (Some (mkFile "avatars/gone.svg" [])) None "0000".

(** Two stored avatars of [alice] with the same hash, and one of nobody. *)
Definition stored_world : World :=
  {| rows := [alice_first; nobody_row; alice_last];
     next_pk := 4; queries := []; calls := []; saved := []; log := []; drawn := 0 |}.

Definition sample_entries : list (string * json) :=
  [ ("Background", JStr "25E899");
    ("SkinTone", JStr "F8D5C2");
    ("Ears", JObj [("component_type", JStr "Ears"); ("svg_asset", JStr "0.svg")]);
    ("HairColor", JStr "000000");
    ("Head", JObj [("svg_asset", JStr "1.svg"); ("component_type", JStr "Head")]) ].

Definition sample_config : json := JObj sample_entries.

(** A configuration with a layer entry that is not a dict. *)
Definition broken_config : json := JObj [("Hat", JStr "Cap")].

(** ** Vocabulary of the statements *)

(** The URL of the file a field holds, when it holds one. *)
Definition url_or_empty {L : Library} (f : FieldFile) : string :=
  match f with
  | Some x => storage_url (fname x)
  | None => ""
  end.

(** The configuration entries that become layers, in iteration order. *)
Definition layer_entries (entries : list (string * json)) : list (string * json) :=
  filter (fun kv => negb (str_in (fst kv) excluded_keys)) entries.

(** [e] is the component built from the path [<component_type>/<svg_asset>]
    of the entry [kv]. *)
Definition built_from {L : Library} (kv : string * json) (e : Element) : Prop :=
  exists d,
    snd kv = JObj d /\
    build_avatar_component
      (py_str (dict_get d "component_type") ++ "/" ++ py_str (dict_get d "svg_asset"))
      ICON_SIZE = Ok e.

(** The converter [convert_field] picks for an output format. *)
Definition picked (output_fmt : string) : converter :=
  if output_fmt =? "svg" then Wand else Img.

(** What the picked converter answers. *)
Definition converted {L : Library} (source : FieldFile) (input_fmt output_fmt : string)
  : result (option bytes) :=
  match picked output_fmt with
  | Wand => convert_wand source input_fmt output_fmt
  | Img => convert_img source input_fmt output_fmt
  end.

(** The hash computation of [create] on the converted PNG. *)
Definition hash_of_png {L : Library} (avatar_png : FieldFile) : result string :=
  rbind (ff_read "png" avatar_png) (fun data => rbind (image_open data) calculate_hash).

(** The record appended to the log by a handler. *)
Definition logged (l : level) (w w' : World) : Prop :=
  exists msg, log w' = (log w ++ [(l, msg)])%list.

(** A stored row with the profile and the hash of the new avatar. *)
Definition duplicate_of (p : option Profile) (h : string) (w : World)
           (row : BaseAvatar) : Prop :=
  In row (rows w) /\ same_profile p (profile row) = true /\ hash row = h.

(** ** The remaining method of BaseAvatar

    [settings.BASE_URL] is a parameter.  The first [try] only probes
    [self.svg.url] and lets a [ValueError] pass; the second replaces any
    [Exception] of [self.profile.handle] by ['Self']. *)
Definition get_avatar_url {L : Library} (BASE_URL : string) (self : BaseAvatar) : result string :=
  rbind (match ff_url "svg" (svg self) with
         | Ok _ => Ok tt
         | Raise e =>
             match exn_cls e with
             | ValueError => Ok tt
             | _ => Raise e
             end
         end) (fun _ =>
  rbind (match profile_handle (profile self) with
         | Ok h => Ok h
         | Raise e => if is_Exception e then Ok "Self" else Raise e
         end) (fun handle =>
  Ok (BASE_URL ++ "dynamic/avatar/" ++ handle))).

(** The excluded keys other than ['Background']. *)
Definition color_keys : list string := ["ClothingColor"; "HairColor"; "SkinTone"].

(** A configuration without its colour entries. *)
Definition without_colors (entries : list (string * json)) : list (string * json) :=
  filter (fun kv => negb (str_in (fst kv) color_keys)) entries.

(** The record [convert_field] logs for an exception. *)
Definition conversion_error (self : BaseAvatar) (e : exn) : level * string :=
  (ERROR, "Error: (" ++ exn_msg e ++ ") - Avatar PK: (" ++ str_of_id (id self) ++ ")").

(** * Properties *)

Section BaseAvatarFacts.

Context {L : Library}.

Lemma require_file_ok (field : string) (f : FieldFile) :
  ff_bool f = true -> exists x, f = Some x /\ require_file field f = Ok x.
Proof.
  destruct f as [x|]; simpl; intros H; [|discriminate].
  exists x. rewrite H. split; reflexivity.
Qed.

Lemma require_file_absent (field : string) (f : FieldFile) :
  ff_bool f = false -> require_file field f = Raise (no_file field).
Proof.
  destruct f as [x|]; simpl; [|reflexivity]. intros ->. reflexivity.
Qed.

Lemma ff_file_inv (field : string) (f : FieldFile) (x : File) :
  ff_file field f = Ok x ->
  f = Some x /\ str_bool (fname x) = true /\ file_open x = None.
Proof.
  unfold ff_file. destruct f as [y|]; simpl; [|discriminate].
  destruct (str_bool (fname y)) eqn:Hy; simpl; [|discriminate].
  destruct (file_open y) eqn:Ho; [discriminate|].
  intros H. injection H as <-. auto.
Qed.

(** C8. [avatar_url] prefers the PNG: it gives the URL of the PNG when the
    PNG field holds a file, otherwise the URL of the SVG when the SVG field
    holds one, otherwise the empty string; it returns in every case. *)
Theorem avatar_url_prefers_png (self : BaseAvatar) :
  avatar_url self =
  Ok (if ff_bool (png self) then url_or_empty (png self)
      else if ff_bool (svg self) then url_or_empty (svg self)
      else "").
Proof.
  unfold avatar_url, ff_url.
  destruct (ff_bool (png self)) eqn:Hpng.
  - destruct (require_file_ok "png" _ Hpng) as (x & Hx & ->). rewrite Hx. reflexivity.
  - destruct (ff_bool (svg self)) eqn:Hsvg; [|reflexivity].
    destruct (require_file_ok "svg" _ Hsvg) as (x & Hx & ->). rewrite Hx. reflexivity.
Qed.

(** C9. [find_similar] is guarded by the hash: with an empty hash it
    returns [None] and leaves the world as it was (no lookup is issued), so
    no stored row is ever returned for such an avatar. *)
Theorem find_similar_empty_hash (self : BaseAvatar) (w : World) :
  hash self = "" ->
  find_similar self w = (Ok None, w) /\
  queries (snd (find_similar self w)) = queries w /\
  forall row, In row (rows w) -> fst (find_similar self w) <> Ok (Some row).
Proof.
  intros Hh. unfold find_similar. rewrite Hh. simpl.
  repeat split. intros row _ H. discriminate H.
Qed.

(** C10. [determine_response] pairs the file and the content type by
    [use_svg]: the SVG file with ['image/svg+xml'] when it is true, the PNG
    file with ['image/png'] when it is false, and the content type tells
    which; the chosen file is read unguarded, so the call returns only when
    that field holds a file: on an empty field it raises the [ValueError]
    of the missing file, and on a named file that the storage cannot open
    it raises what the storage raises. *)
Theorem determine_response_pairs (self : BaseAvatar) :
  (forall f, ff_file "svg" (svg self) = Ok f ->
             determine_response self true = Ok (f, "image/svg+xml")) /\
  (forall f, ff_file "png" (png self) = Ok f ->
             determine_response self false = Ok (f, "image/png")) /\
  (forall use_svg f content_type,
      determine_response self use_svg = Ok (f, content_type) ->
      (content_type = "image/svg+xml" /\ svg self = Some f <-> use_svg = true) /\
      (content_type = "image/png" /\ png self = Some f <-> use_svg = false)) /\
  (forall use_svg,
      is_ok (determine_response self use_svg) = true ->
      ff_bool (if use_svg then svg self else png self) = true) /\
  (forall use_svg : bool,
      ff_bool (if use_svg then svg self else png self) = false ->
      determine_response self use_svg
        = Raise (no_file (if use_svg then "svg" else "png"))) /\
  (forall (use_svg : bool) x e,
      (if use_svg then svg self else png self) = Some x ->
      str_bool (fname x) = true ->
      file_open x = Some e ->
      determine_response self use_svg = Raise e).
Proof.
  split; [|split; [|split; [|split; [|split]]]].
  - intros f Hf. unfold determine_response. simpl. rewrite Hf. reflexivity.
  - intros f Hf. unfold determine_response. simpl. rewrite Hf. reflexivity.
  - intros [|] f ct; unfold determine_response; simpl.
    + destruct (ff_file "svg" (svg self)) as [x|e] eqn:Hf; [|discriminate].
      destruct (ff_file_inv _ _ _ Hf) as (Hs & _).
      intros H. injection H as <- <-. split; split; try tauto; try discriminate.
      intros [H _]. discriminate H.
    + destruct (ff_file "png" (png self)) as [x|e] eqn:Hf; [|discriminate].
      destruct (ff_file_inv _ _ _ Hf) as (Hp & _).
      intros H. injection H as <- <-. split; split; try tauto; try discriminate.
      intros [H _]. discriminate H.
  - intros [|]; unfold determine_response; simpl.
    + destruct (ff_file "svg" (svg self)) as [x|e] eqn:Hf; [|discriminate].
      destruct (ff_file_inv _ _ _ Hf) as (-> & Hn & _). intros _. exact Hn.
    + destruct (ff_file "png" (png self)) as [x|e] eqn:Hf; [|discriminate].
      destruct (ff_file_inv _ _ _ Hf) as (-> & Hn & _). intros _. exact Hn.
  - intros [|] H; unfold determine_response, ff_file; simpl.
    + rewrite (require_file_absent "svg" _ H). reflexivity.
    + rewrite (require_file_absent "png" _ H). reflexivity.
  - intros [|] x e Hx Hn Ho; unfold determine_response, ff_file; simpl;
      rewrite Hx; simpl; rewrite Hn; simpl; rewrite Ho; reflexivity.
Qed.

End BaseAvatarFacts.

Ltac run_py :=
  unfold convert_field, find_similar, objects_filter_last, try_except, bind, ret, lift,
    logger, token_hex, call_converter_of, storage_save, model_save in *.

Section TokenFacts.

Lemma hex_digit_is_hex (n : N) : (n < 16)%N -> is_hex_char (hex_digit n) = true.
Proof.
  intros Hn. unfold hex_digit.
  remember (N.to_nat n) as k eqn:Hk.
  assert (Hlt : k < 16) by lia. clear Hk Hn.
  do 16 (destruct k as [|k]; [reflexivity|]). lia.
Qed.

Lemma hexlify_token (bs : list N) : is_hex_token (List.length bs) (hexlify bs).
Proof.
  unfold is_hex_token. induction bs as [|b bs [IHlen IHhex]]; [split; reflexivity|].
  split.
  - simpl. rewrite IHlen. lia.
  - cbn [hexlify list_ascii_of_string forallb]. rewrite IHhex.
    rewrite !hex_digit_is_hex; [reflexivity| |].
    + apply N.mod_lt. discriminate.
    + apply N.Div0.div_lt_upper_bound. simpl. apply N.mod_lt. discriminate.
Qed.

Lemma drawn_token (f : nat -> N) (n : nat) : is_hex_token n (hexlify (map f (seq 0 n))).
Proof.
  pose proof (hexlify_token (map f (seq 0 n))) as H.
  rewrite length_map, length_seq in H. exact H.
Qed.

Lemma dotted_name_nonempty (a b : string) : str_bool (a ++ "." ++ b) = true.
Proof. destruct a; reflexivity. Qed.

End TokenFacts.

Section ConvertFieldFacts.

Context {L : Library}.

Lemma convert_field_world self source input_fmt output_fmt w :
  let w' := snd (convert_field self source input_fmt output_fmt w) in
  rows w' = rows w /\ next_pk w' = next_pk w /\ queries w' = queries w /\ saved w' = saved w /\
  calls w' = (calls w ++ [mkCall (picked output_fmt) source input_fmt output_fmt])%list.
Proof.
  unfold picked. run_py.
  destruct (output_fmt =? "svg"); simpl;
    [destruct (convert_wand source input_fmt output_fmt) as [[b|]|e]
    |destruct (convert_img source input_fmt output_fmt) as [[b|]|e]];
    try (destruct (profile self)); simpl; try (destruct (is_Exception e)); simpl;
    repeat split; reflexivity.
Qed.

Lemma convert_field_result self source input_fmt output_fmt w :
  let r := fst (convert_field self source input_fmt output_fmt w) in
  let w' := snd (convert_field self source input_fmt output_fmt w) in
  match converted source input_fmt output_fmt with
  | Ok (Some b) =>
      log w' = log w /\
      match profile self with
      | Some p => r = Ok (Some (mkFile (handle p ++ "." ++ output_fmt) b))
      | None => exists token, is_hex_token 8 token /\
                              r = Ok (Some (mkFile (token ++ "." ++ output_fmt) b))
      end
  | Ok None => r = Ok None /\ log w' = log w
  | Raise e =>
      if is_Exception e then r = Ok None /\ logged ERROR w w'
      else r = Raise e /\ log w' = log w
  end.
Proof.
  unfold converted, picked, logged. run_py.
  destruct (output_fmt =? "svg"); simpl;
    [destruct (convert_wand source input_fmt output_fmt) as [[b|]|e]
    |destruct (convert_img source input_fmt output_fmt) as [[b|]|e]];
    try (destruct (profile self)); simpl; try (destruct (is_Exception e)); simpl;
    repeat split; try reflexivity; try (eexists; reflexivity);
    exists (hexlify (map (fun i => urandom (drawn w + i)) (seq 0 8)));
    (split; [apply drawn_token|reflexivity]).
Qed.

Lemma convert_field_some self source input_fmt output_fmt w f w' :
  convert_field self source input_fmt output_fmt w = (Ok (Some f), w') ->
  ff_bool (Some f) = true /\ ff_read "png" (Some f) = Ok (fdata f).
Proof.
  intros H.
  pose proof (convert_field_result self source input_fmt output_fmt w) as R.
  rewrite H in R. simpl in R.
  assert (Hn : str_bool (fname f) = true).
  { destruct (converted source input_fmt output_fmt) as [[b|]|e].
    - destruct R as [_ R]. destruct (profile self).
      + injection R as ->. apply dotted_name_nonempty.
      + destruct R as (t & _ & R). injection R as ->. apply dotted_name_nonempty.
    - destruct R as [R _]. discriminate R.
    - destruct (is_Exception e); destruct R as [R _]; discriminate R. }
  unfold ff_read, require_file, ff_bool. rewrite Hn. split; reflexivity.
Qed.

(** C3. [convert_field] dispatches on the output format: it makes exactly
    one converter call, to the wand-based converter when the output format
    is ['svg'] and to the image-based one otherwise; when the converter
    answers with a stream the method returns a file with that content, named
    [<profile handle>.<output_fmt>] when the avatar has a profile and
    [<token>.<output_fmt>], the token being 16 hexadecimal characters,
    otherwise. *)
Theorem convert_field_dispatch self source input_fmt output_fmt w :
  let r := fst (convert_field self source input_fmt output_fmt w) in
  let w' := snd (convert_field self source input_fmt output_fmt w) in
  (output_fmt = "svg" ->
   calls w' = (calls w ++ [mkCall Wand source input_fmt output_fmt])%list) /\
  (output_fmt <> "svg" ->
   calls w' = (calls w ++ [mkCall Img source input_fmt output_fmt])%list) /\
  (forall b,
      (if output_fmt =? "svg" then convert_wand source input_fmt output_fmt
       else convert_img source input_fmt output_fmt) = Ok (Some b) ->
      match profile self with
      | Some p => r = Ok (Some (mkFile (handle p ++ "." ++ output_fmt) b))
      | None => exists token,
          String.length token = 16 /\
          forallb is_hex_char (list_ascii_of_string token) = true /\
          r = Ok (Some (mkFile (token ++ "." ++ output_fmt) b))
      end).
Proof.
  intros r w'.
  destruct (convert_field_world self source input_fmt output_fmt w) as (_ & _ & _ & _ & Hc).
  fold w' in Hc. unfold picked in Hc.
  split; [|split].
  - intros ->. exact Hc.
  - intros Hne. apply String.eqb_neq in Hne. rewrite Hne in Hc. exact Hc.
  - intros b Hb.
    pose proof (convert_field_result self source input_fmt output_fmt w) as R.
    unfold converted, picked in R.
    destruct (output_fmt =? "svg"); rewrite Hb in R; destruct R as [_ R];
      (destruct (profile self); [exact R|]);
      destruct R as (t & [Hlen Hhex] & R); exists t; auto.
Qed.

End ConvertFieldFacts.

Section CreateFromConfigFacts.

Context {L : Library}.

Lemma component_path_dict (d : list (string * json)) :
  component_path (JObj d) =
  Ok (py_str (dict_get d "component_type") ++ "/" ++ py_str (dict_get d "svg_asset")).
Proof. reflexivity. Qed.

Lemma append_components_layers (items : list (string * json)) :
  forall (components : list (Component Element)) (es : list Element),
    Forall2 built_from (layer_entries items) es ->
    append_components items components = Ok (components ++ map Layer es)%list.
Proof.
  induction items as [|[k v] items IH]; intros components es Hes.
  - inversion Hes; subst. simpl. rewrite app_nil_r. reflexivity.
  - unfold layer_entries in Hes. cbn [filter fst] in Hes.
    cbn [append_components].
    destruct (negb (str_in k excluded_keys)).
    + inversion Hes as [|kv e rest es' (d & Hv & Hbuild) Hrest]; subst.
      simpl in Hv. subst v. rewrite component_path_dict. cbn [rbind].
      rewrite Hbuild. cbn [rbind].
      rewrite (IH _ es' Hrest), <- app_assoc. reflexivity.
    + apply IH. exact Hes.
Qed.

Lemma create_from_config_world (self : CustomAvatar) (w : World) a w' :
  create_from_config self w = (Ok a, w') ->
  (exists f, a = custom_with (set_svg (Some f)) self /\
             rbind (compose_figure (config self)) figure_save = Ok (fdata f)) /\
  rows w' = rows w /\ queries w' = queries w /\ log w' = log w /\ calls w' = calls w.
Proof.
  unfold create_from_config. run_py.
  destruct (compose_figure (config self)) as [fig|e]; [|discriminate].
  cbn [rbind].
  destruct (figure_save fig) as [content|e]; [|discriminate].
  destruct (profile (custom_base self)) as [p|]; [destruct (str_bool (handle p))|];
    intros H; injection H as <- <-; simpl;
    (split; [eexists; split; reflexivity|repeat split; reflexivity]).
Qed.

(** C2. [create_from_config] assembles the SVG from a background line and
    named layers: for a configuration dict whose layer entries (the keys
    outside Background, ClothingColor, HairColor, SkinTone) are dicts that
    [build_avatar_component] accepts, the figure is 215 by 215, opens with
    the one line from (0, 215/2) to (215, 215/2) of width ['215px'] in the
    colour of the ['Background'] entry, and continues with one layer per
    layer entry, in iteration order, each built from
    [<component_type>/<svg_asset>]; this figure is what the method writes
    into the SVG field. *)
Theorem create_from_config_figure (entries : list (string * json)) (es : list Element) :
  Forall2 built_from (layer_entries entries) es ->
  let figure :=
    mkFigure 215 215
      (Line [(Qmake 0 1, Qmake 215 2); (Qmake 215 1, Qmake 215 2)]
            "215px"
            ("#" ++ py_str (dict_get entries "Background"))
       :: map Layer es) in
  compose_figure (JObj entries) = Ok figure /\
  List.length (fig_elements figure) = S (List.length (layer_entries entries)) /\
  forall self w content,
    config self = JObj entries ->
    figure_save figure = Ok content ->
    exists f, fst (create_from_config self w) = Ok (custom_with (set_svg (Some f)) self) /\
              fdata f = content.
Proof.
  intros Hes figure.
  assert (Hfig : compose_figure (JObj entries) = Ok figure).
  { unfold compose_figure. cbn [json_get json_items rbind].
    rewrite (append_components_layers entries _ es Hes). reflexivity. }
  split; [exact Hfig|split].
  - simpl. rewrite length_map. f_equal. symmetry. exact (Forall2_length Hes).
  - intros self w content Hcfg Hsave.
    unfold create_from_config. run_py. rewrite Hcfg, Hfig, Hsave.
    destruct (profile (custom_base self)) as [p|]; [destruct (str_bool (handle p))|];
      simpl; eexists; split; reflexivity.
Qed.

End CreateFromConfigFacts.

Section LookupFacts.

Lemma last_by_pk_fold (qs : list BaseAvatar) :
  forall acc : option BaseAvatar,
    match fold_left
            (fun acc row =>
               match acc with
               | None => Some row
               | Some best => if (pk_of best <=? pk_of row)%nat then Some row else Some best
               end) qs acc with
    | Some r => In r qs \/ acc = Some r
    | None => qs = [] /\ acc = None
    end.
Proof.
  induction qs as [|row qs IH]; intros acc; simpl.
  - destruct acc; auto.
  - match goal with |- context [fold_left ?f qs ?a] => specialize (IH a) end.
    destruct (fold_left _ qs _) as [r|].
    + destruct IH as [Hin|Hacc]; [auto|].
      destruct acc as [best|].
      * destruct (pk_of best <=? pk_of row)%nat; injection Hacc as <-; auto.
      * injection Hacc as <-; auto.
    + destruct IH as [_ Hacc]. destruct acc as [best|]; [|discriminate].
      destruct (pk_of best <=? pk_of row)%nat; discriminate.
Qed.

Lemma last_by_pk_In (qs : list BaseAvatar) (r : BaseAvatar) :
  last_by_pk qs = Some r -> In r qs.
Proof.
  intros H. pose proof (last_by_pk_fold qs None) as F.
  unfold last_by_pk in H. rewrite H in F. destruct F as [F|F]; [exact F|discriminate].
Qed.

Lemma last_by_pk_None (qs : list BaseAvatar) :
  last_by_pk qs = None <-> qs = [].
Proof.
  split.
  - intros H. pose proof (last_by_pk_fold qs None) as F.
    unfold last_by_pk in H. rewrite H in F. apply F.
  - intros ->. reflexivity.
Qed.

Lemma matches_duplicate (p : option Profile) (h : string) (w : World) (row : BaseAvatar) :
  In row (filter (matches p h) (rows w)) <-> duplicate_of p h w row.
Proof.
  unfold duplicate_of, matches. rewrite filter_In, andb_true_iff, String.eqb_eq. tauto.
Qed.

(** With a hash set and a duplicate stored, the lookup finds the duplicate
    with the greatest key. *)
Lemma find_similar_duplicate (self : BaseAvatar) (w : World) (row : BaseAvatar) :
  hash self <> "" ->
  duplicate_of (profile self) (hash self) w row ->
  exists dup,
    last_by_pk (filter (matches (profile self) (hash self)) (rows w)) = Some dup /\
    duplicate_of (profile self) (hash self) w dup /\
    fst (find_similar self w) = Ok (Some dup).
Proof.
  intros Hh Hrow. apply matches_duplicate in Hrow.
  destruct (last_by_pk (filter (matches (profile self) (hash self)) (rows w))) as [dup|] eqn:Hl.
  - exists dup. split; [reflexivity|split].
    + apply matches_duplicate, last_by_pk_In, Hl.
    + unfold find_similar, str_bool. apply String.eqb_neq in Hh. rewrite Hh. simpl.
      rewrite Hl. reflexivity.
  - apply last_by_pk_None in Hl. rewrite Hl in Hrow. destruct Hrow.
Qed.

(** Without a duplicate the lookup finds nothing. *)
Lemma find_similar_fresh (self : BaseAvatar) (w : World) :
  (forall row, ~ duplicate_of (profile self) (hash self) w row) ->
  fst (find_similar self w) = Ok None /\
  rows (snd (find_similar self w)) = rows w /\
  next_pk (snd (find_similar self w)) = next_pk w /\
  saved (snd (find_similar self w)) = saved w /\
  calls (snd (find_similar self w)) = calls w /\
  log (snd (find_similar self w)) = log w.
Proof.
  intros Hfresh. unfold find_similar. destruct (str_bool (hash self)); simpl.
  - replace (filter _ (rows w)) with (@nil BaseAvatar); [repeat split; reflexivity|].
    symmetry. destruct (filter _ (rows w)) as [|row rest] eqn:Hf; [reflexivity|].
    exfalso. apply (Hfresh row), matches_duplicate. rewrite Hf. left. reflexivity.
  - repeat split; reflexivity.
Qed.

End LookupFacts.

Section Deduplication.

Context {L : Library}.

(** C1. Avatars are deduplicated by their hash: when the new avatar has a
    non-empty hash [h] and a stored avatar with the same profile and the
    same hash exists, [CustomAvatar.select], [SocialAvatar.github_avatar]
    and [CustomAvatar.create] each return a stored avatar with that profile
    and hash (the one [.last()] picks) and not the new one.  For [create]
    the new avatar has its hash set once the SVG was generated, the PNG
    converted and the hash computed. *)
Theorem avatars_deduplicated (p : option Profile) (h : string) (w : World) (row : BaseAvatar) :
  h <> "" ->
  duplicate_of p h w row ->
  exists dup,
    duplicate_of p h w dup /\
    last_by_pk (filter (matches p h) (rows w)) = Some dup /\
    (forall self, hash (custom_base self) = h ->
                  fst (select self p w) = Ok (Base dup)) /\
    (forall avatar_img, calculate_hash avatar_img = Ok h ->
                        fst (github_avatar p avatar_img w) = Ok (Base dup)) /\
    (forall config_json avatar w0 avatar_png w1,
        create_from_config (mkCustomAvatar (new_base p "") false config_json) w
          = (Ok avatar, w0) ->
        convert_field (custom_base avatar) (svg (custom_base avatar)) "svg" "png" w0
          = (Ok (Some avatar_png), w1) ->
        rbind (image_open (fdata avatar_png)) calculate_hash = Ok h ->
        fst (create p config_json w) = Ok (Base dup)).
Proof.
  intros Hh Hrow.
  destruct (find_similar_duplicate (new_base p h) w row Hh Hrow) as (dup & Hlast & Hdup & Hfind).
  simpl in Hlast, Hdup.
  exists dup. split; [exact Hdup|split; [exact Hlast|split; [|split]]].
  - intros self Hself. unfold select, bind. rewrite Hself.
    change (find_similar _ w) with (find_similar (new_base p h) w).
    unfold find_similar in *. simpl in *.
    destruct (str_bool h); simpl in *; [|discriminate].
    injection Hfind as ->. reflexivity.
  - intros img Himg. unfold github_avatar, bind, lift. rewrite Himg.
    destruct (find_similar (new_base p h) w) as [r w'] eqn:Hf. simpl in Hfind. subst r.
    reflexivity.
  - intros cfg avatar w0 avatar_png w1 Hcfc Hconv Hhash.
    destruct (create_from_config_world _ _ _ _ Hcfc) as ((f & -> & _) & Hrows & _).
    destruct (convert_field_some _ _ _ _ _ _ _ Hconv) as [_ Hread].
    pose proof (convert_field_world (custom_base (custom_with (set_svg (Some f))
                  (mkCustomAvatar (new_base p "") false cfg))) (Some f) "svg" "png" w0) as Hw.
    simpl in Hconv, Hw. rewrite Hconv in Hw. simpl in Hw. destruct Hw as (Hrows1 & _).
    unfold create. rewrite Hcfc. unfold create_try. simpl. rewrite Hconv. simpl.
    rewrite Hread. cbn [rbind]. rewrite Hhash.
    unfold find_similar in *. simpl in *.
    destruct (str_bool h); simpl in *; [|discriminate].
    rewrite Hrows1, Hrows. injection Hfind as ->. reflexivity.
Qed.

End Deduplication.

Section CreateFacts.

Context {L : Library}.


(** C6, as the code has it.  When the SVG was generated and then the
    conversion handed back [avatar_png] ([None] when it failed) and reading
    or hashing that PNG raised, [create] logs the warning, makes no lookup
    and returns the new avatar with its profile, configuration and SVG, an
    empty hash, and [avatar_png] in the PNG field: the field keeps its
    earlier value when the conversion failed, and holds the converted file
    when only the hashing failed. *)
Theorem create_survives_conversion_failure
        (p : option Profile) (config_json : json) (w : World)
        (avatar : CustomAvatar) (w0 : World) (avatar_png : FieldFile) (w1 : World) (e : exn) :
  create_from_config (mkCustomAvatar (new_base p "") false config_json) w = (Ok avatar, w0) ->
  convert_field (custom_base avatar) (svg (custom_base avatar)) "svg" "png" w0
    = (Ok avatar_png, w1) ->
  hash_of_png avatar_png = Raise e ->
  is_Exception e = true ->
  exists a w',
    create p config_json w = (Ok (Custom a), w') /\
    log w' = (log w1 ++ [(WARNING, "There was error during avatar conversion")])%list /\
    queries w' = queries w /\
    profile (custom_base a) = p /\
    config a = config_json /\
    svg (custom_base a) = svg (custom_base avatar) /\
    (exists f, svg (custom_base a) = Some f) /\
    hash (custom_base a) = "" /\
    png (custom_base a) = avatar_png /\
    (avatar_png = None -> png (custom_base a) = png (custom_base avatar)).
Proof.
  intros Hcfc Hconv Hhash He.
  destruct (create_from_config_world _ _ _ _ Hcfc) as ((f & -> & _) & _ & Hq & _).
  pose proof (convert_field_world (custom_base (custom_with (set_svg (Some f))
                (mkCustomAvatar (new_base p "") false config_json))) (Some f) "svg" "png" w0) as Hw.
  simpl in Hconv, Hw. rewrite Hconv in Hw. simpl in Hw. destruct Hw as (_ & _ & Hq1 & _).
  unfold hash_of_png in Hhash.
  unfold create. rewrite Hcfc. unfold create_try. simpl. rewrite Hconv. simpl.
  rewrite Hhash, He. run_py. simpl.
  eexists. eexists. split; [reflexivity|]. simpl.
  repeat split; try reflexivity.
  - congruence.
  - eexists; reflexivity.
  - intros ->. reflexivity.
Qed.

End CreateFacts.

Section GithubAvatarFacts.

Context {L : Library}.

Lemma find_similar_storage (self : BaseAvatar) (w : World) (a : BaseAvatar) (name : string) :
  stored_as (snd (find_similar self w)) a name = stored_as w a name.
Proof.
  unfold stored_as, find_similar. destruct (str_bool (hash self)); reflexivity.
Qed.

(** C7, as the code has it.  For a profile and an image without a stored
    duplicate, once the hash is computed and the image is serialised,
    [github_avatar] saves the PNG under [<handle>.png] with the bytes of the
    image and inserts one row, with the next key, that has the profile, the
    hash of the image and the PNG but no SVG; no other file is saved.  The
    avatar it returns is that row with, on the returned object only, the SVG
    that [convert_field] gives for the PNG from ['png'] to ['svg']: the wand
    conversion named [<handle>.svg], or nothing when the converter gives
    nothing. *)
Theorem github_avatar_stores_png_only
        (p : Profile) (avatar_img : Image) (w : World) (h : string) (content : bytes) :
  let stored_png :=
    mkFile (fst (stored_as w (new_base (Some p) h) (handle p ++ ".png"))) content in
  calculate_hash avatar_img = Ok h ->
  (forall row, ~ duplicate_of (Some p) h w row) ->
  get_temp_image_file avatar_img = Ok content ->
  (forall e, convert_wand (Some stored_png) "png" "svg" = Raise e -> is_Exception e = true) ->
  exists a w',
    github_avatar (Some p) avatar_img w = (Ok (Social (mkSocialAvatar a)), w') /\
    profile a = Some p /\
    hash a = h /\
    png a = Some stored_png /\
    id a = Some (next_pk w) /\
    saved w' = (saved w ++ [((handle p ++ ".png")%string, content)])%list /\
    rows w' = (rows w ++ [set_svg None a])%list /\
    next_pk w' = S (next_pk w) /\
    (exists self w1, png self = png a /\
                     convert_field self (png a) "png" "svg" w1 = (Ok (svg a), w')) /\
    svg a = match convert_wand (png a) "png" "svg" with
            | Ok (Some b) => Some (mkFile (handle p ++ ".svg") b)
            | _ => None
            end.
Proof.
  intros stored_png Hhash Hfresh Htmp Hwand.
  destruct (find_similar_fresh (new_base (Some p) h) w Hfresh) as (Hnone & Hsame).
  pose proof (find_similar_storage (new_base (Some p) h) w (new_base (Some p) h)
                                   (handle p ++ ".png")) as Hst.
  destruct (find_similar (new_base (Some p) h) w) as [r w0] eqn:Hfind.
  simpl in Hnone, Hsame, Hst. subst r. destruct Hsame as (Hrows & Hpk & Hsaved & _).
  set (avatar1 := set_id (Some (next_pk w0)) (set_png (Some stored_png) (new_base (Some p) h))).
  set (w1 := {| rows := (rows w0 ++ [avatar1])%list; next_pk := S (next_pk w0);
                queries := queries w0; calls := calls w0;
                saved := (saved w0 ++ [((handle p ++ ".png")%string, content)])%list;
                log := log w0;
                drawn := drawn w0 + snd (stored_as w0 (new_base (Some p) h)
                                                   (handle p ++ ".png")) |}).
  destruct (convert_field avatar1 (Some stored_png) "png" "svg" w1) as [r w2] eqn:Hconv.
  pose proof (convert_field_result avatar1 (Some stored_png) "png" "svg" w1) as R.
  pose proof (convert_field_world avatar1 (Some stored_png) "png" "svg" w1) as W.
  rewrite Hconv in R, W. simpl in R, W. destruct W as (Hrows2 & Hpk2 & _ & Hsaved2 & _).
  unfold converted, picked in R. simpl in R.
  assert (Hrun : github_avatar (Some p) avatar_img w =
                 (match r with
                  | Ok s => Ok (Social (mkSocialAvatar (set_svg s avatar1)))
                  | Raise e => Raise e
                  end, w2)).
  { unfold github_avatar, bind, lift. rewrite Hhash, Hfind. simpl. rewrite Htmp.
    unfold storage_save, model_save. simpl. rewrite Hst. fold stored_png.
    fold avatar1. rewrite <- Hst. fold w1.
    rewrite Hconv. destruct r; reflexivity. }
  assert (Hr : r = Ok (match convert_wand (Some stored_png) "png" "svg" with
                       | Ok (Some b) => Some (mkFile (handle p ++ ".svg") b)
                       | _ => None
                       end)).
  { destruct (convert_wand (Some stored_png) "png" "svg") as [[b|]|e] eqn:Hw.
    - apply R.
    - apply R.
    - rewrite (Hwand e eq_refl) in R. apply R. }
  rewrite Hr in Hrun, Hconv.
  eexists. exists w2. split; [exact Hrun|]. simpl.
  split; [reflexivity|split; [reflexivity|split; [reflexivity|]]].
  split; [unfold avatar1; simpl; rewrite Hpk; reflexivity|].
  split; [rewrite Hsaved2; simpl; rewrite Hsaved; reflexivity|].
  split; [rewrite Hrows2; simpl; rewrite Hrows; reflexivity|].
  split; [rewrite Hpk2; simpl; rewrite Hpk; reflexivity|].
  split; [|reflexivity].
  exists avatar1, w1. split; [reflexivity|exact Hconv].
Qed.

End GithubAvatarFacts.

Section ErrorFacts.

Context {L : Library}.

Lemma create_after_config (p : option Profile) (config_json : json) (w : World) avatar w0 :
  create_from_config (mkCustomAvatar (new_base p "") false config_json) w = (Ok avatar, w0) ->
  create p config_json w =
  match create_try avatar w0 with
  | (Ok (Some similar_avatar), _, w1) => (Ok (Base similar_avatar), w1)
  | (Ok None, avatar1, w1) => (Ok (Custom avatar1), w1)
  | (Raise e, avatar1, w1) =>
      if is_Exception e then
        (Ok (Custom avatar1),
         {| rows := rows w1; next_pk := next_pk w1; queries := queries w1; calls := calls w1;
            saved := saved w1;
            log := (log w1 ++ [(WARNING, "There was error during avatar conversion")])%list;
            drawn := drawn w1 |})
      else (Raise e, w1)
  end.
Proof.
  intros H. unfold create. rewrite H.
  destruct (create_try avatar w0) as [[[[s|]|e] a1] w1]; reflexivity.
Qed.

(** C4, as the code has it.  [convert_field] catches every [Exception]
    raised while converting, logs an error and returns [None].  [create]
    catches the [Exception]s raised inside its [try] (conversion, hashing,
    lookup), logs a warning and returns the new avatar, but an exception
    raised by [create_from_config], which runs before the [try], reaches
    the caller.  [github_avatar] has no handler: an exception raised by the
    hash computation reaches the caller, and so does the [AttributeError]
    of [profile.handle] when the profile is [None] and no duplicate is
    stored. *)
Theorem exceptions_caught_inside_try_only :
  (forall self source input_fmt output_fmt w,
      (forall e, fst (convert_field self source input_fmt output_fmt w) = Raise e ->
                 is_Exception e = false) /\
      (forall e, converted source input_fmt output_fmt = Raise e ->
                 is_Exception e = true ->
                 fst (convert_field self source input_fmt output_fmt w) = Ok None /\
                 logged ERROR w (snd (convert_field self source input_fmt output_fmt w)))) /\
  (forall p config_json w avatar w0,
      create_from_config (mkCustomAvatar (new_base p "") false config_json) w = (Ok avatar, w0) ->
      (forall e, fst (create p config_json w) = Raise e -> is_Exception e = false) /\
      (forall e, fst (fst (create_try avatar w0)) = Raise e ->
                 is_Exception e = true ->
                 fst (create p config_json w) = Ok (Custom (snd (fst (create_try avatar w0)))) /\
                 logged WARNING (snd (create_try avatar w0)) (snd (create p config_json w)))) /\
  (forall p config_json w e w0,
      create_from_config (mkCustomAvatar (new_base p "") false config_json) w = (Raise e, w0) ->
      create p config_json w = (Raise e, w0)) /\
  (forall p avatar_img w e,
      calculate_hash avatar_img = Raise e ->
      github_avatar p avatar_img w = (Raise e, w)) /\
  (forall avatar_img w h,
      calculate_hash avatar_img = Ok h ->
      (forall row, ~ duplicate_of None h w row) ->
      fst (github_avatar None avatar_img w) =
      Raise (Exn AttributeError "'NoneType' object has no attribute 'handle'")).
Proof.
  split; [|split; [|split; [|split]]].
  - intros self source input_fmt output_fmt w.
    pose proof (convert_field_result self source input_fmt output_fmt w) as R. simpl in R.
    split.
    + intros e He. rewrite He in R.
      destruct (converted source input_fmt output_fmt) as [[b|]|e'].
      * destruct R as [_ R]. destruct (profile self); [discriminate R|].
        destruct R as (t & _ & R). discriminate R.
      * destruct R as [R _]. discriminate R.
      * destruct (is_Exception e') eqn:He'; destruct R as [R _]; [discriminate R|].
        injection R as ->. exact He'.
    + intros e He Hexc. rewrite He, Hexc in R. exact R.
  - intros p config_json w avatar w0 Hcfc.
    rewrite (create_after_config _ _ _ _ _ Hcfc).
    destruct (create_try avatar w0) as [[[[s|]|e'] a1] w1]; simpl; split.
    + discriminate.
    + discriminate.
    + discriminate.
    + discriminate.
    + intros e. destruct (is_Exception e') eqn:He'; simpl; [discriminate|].
      intros H. injection H as <-. exact He'.
    + intros e H. injection H as <-. intros ->. simpl.
      split; [reflexivity|]. eexists. reflexivity.
  - intros p config_json w e w0 H. unfold create. rewrite H. reflexivity.
  - intros p avatar_img w e H. unfold github_avatar, bind, lift. rewrite H. reflexivity.
  - intros avatar_img w h Hh Hfresh.
    destruct (find_similar_fresh (new_base None h) w Hfresh) as (Hnone & _).
    unfold github_avatar, bind, lift. rewrite Hh.
    destruct (find_similar (new_base None h) w) as [r w0]. simpl in Hnone. subst r.
    reflexivity.
Qed.


End ErrorFacts.

(** * The statements at concrete inputs *)

Lemma avatars_deduplicated_witness :
  fst (select (mkCustomAvatar (new_base None "c3d4") false sample_config)
              (Some alice) stored_world) = Ok (Base alice_last) /\
  fst (github_avatar (L := converting_library) (Some alice) [Byte.x01] stored_world)
    = Ok (Base alice_last) /\
  fst (create (L := converting_library) (Some alice) sample_config stored_world)
    = Ok (Base alice_last).
Proof.
  assert (Hne : "c3d4" <> "") by discriminate.
  assert (Hdup : duplicate_of (Some alice) "c3d4" stored_world alice_first).
  { unfold duplicate_of. simpl. auto. }
  destruct (avatars_deduplicated (L := converting_library)
              (Some alice) "c3d4" stored_world alice_first Hne Hdup)
    as (dup & _ & Hlast & Hselect & Hgithub & Hcreate).
  vm_compute in Hlast. injection Hlast as <-.
  split; [|split].
  - apply Hselect. reflexivity.
  - apply Hgithub. reflexivity.
  - eapply Hcreate; reflexivity.
Defined.

Lemma create_from_config_figure_witness :
  compose_figure (L := converting_library) sample_config =
  Ok (mkFigure 215 215
        [ Line [(Qmake 0 1, Qmake 215 2); (Qmake 215 1, Qmake 215 2)] "215px" "#25E899";
          Layer "Ears/0.svg";
          Layer "Head/1.svg" ]).
Proof.
  assert (H : Forall2 (built_from (L := converting_library))
                      (layer_entries sample_entries) ["Ears/0.svg"; "Head/1.svg"]).
  { repeat constructor; eexists; split; reflexivity. }
  exact (proj1 (create_from_config_figure (L := converting_library) sample_entries _ H)).
Defined.

Lemma convert_field_dispatch_witness :
  calls (snd (convert_field (L := converting_library)
                            (new_base (Some alice) "") None "svg" "png" empty_world))
    = [mkCall Img None "svg" "png"] /\
  fst (convert_field (L := converting_library)
                     (new_base (Some alice) "") None "svg" "png" empty_world)
    = Ok (Some (mkFile "alice.png" png_bytes)) /\
  calls (snd (convert_field (L := converting_library)
                            (new_base None "") None "png" "svg" empty_world))
    = [mkCall Wand None "png" "svg"].
Proof.
  destruct (convert_field_dispatch (L := converting_library)
              (new_base (Some alice) "") None "svg" "png" empty_world) as (_ & Himg & Hname).
  destruct (convert_field_dispatch (L := converting_library)
              (new_base None "") None "png" "svg" empty_world) as (Hwand & _ & _).
  split; [|split].
  - apply Himg. discriminate.
  - apply (Hname png_bytes). reflexivity.
  - apply Hwand. reflexivity.
Defined.

Lemma create_survives_conversion_failure_witness :
  exists a w',
    create (L := unhashable_library) (Some alice) sample_config empty_world
      = (Ok (Custom a), w') /\
    log w' = [(WARNING, "There was error during avatar conversion")] /\
    queries w' = [] /\
    hash (custom_base a) = "" /\
    png (custom_base a) = Some (mkFile "alice.png" png_bytes).
Proof.
  edestruct (create_survives_conversion_failure (L := unhashable_library)
               (Some alice) sample_config empty_world)
    as (a & w' & Hrun & Hlog & Hq & _ & _ & _ & _ & Hh & Hpng & _);
    [reflexivity|reflexivity|reflexivity|reflexivity|].
  exists a, w'. repeat split; assumption.
Defined.

Lemma github_avatar_stores_png_only_witness :
  exists a w',
    github_avatar (L := converting_library) (Some bob) [Byte.x01] stored_world
      = (Ok (Social (mkSocialAvatar a)), w') /\
    hash a = "c3d4" /\
    png a = Some (mkFile "avatars/bob.png" [Byte.x01]) /\
    id a = Some 4 /\
    saved w' = [("bob.png", [Byte.x01])] /\
    rows w' = [alice_first; nobody_row; alice_last; set_svg None a] /\
    svg a = Some (mkFile "bob.svg" png_bytes).
Proof.
  assert (Hfresh : forall row, ~ duplicate_of (Some bob) "c3d4" stored_world row).
  { intros row (Hin & Hp & _). simpl in Hin.
    destruct Hin as [<-|[<-|[<-|[]]]]; discriminate Hp. }
  assert (Hwand : forall e,
             convert_wand (Library := converting_library)
                          (Some (mkFile "avatars/bob.png" [Byte.x01])) "png" "svg" = Raise e ->
             is_Exception e = true).
  { intros e H. discriminate H. }
  destruct (github_avatar_stores_png_only (L := converting_library)
              bob [Byte.x01] stored_world "c3d4" [Byte.x01] eq_refl Hfresh eq_refl Hwand)
    as (a & w' & Hrun & _ & Hh & Hpng & Hid & Hsaved & Hrows & _ & _ & Hsvg).
  exists a, w'. rewrite Hpng in Hsvg. repeat split; assumption.
Defined.

Lemma find_similar_empty_hash_witness :
  find_similar (new_base (Some alice) "") stored_world = (Ok None, stored_world).
Proof.
  exact (proj1 (find_similar_empty_hash (new_base (Some alice) "") stored_world eq_refl)).
Defined.

Lemma determine_response_pairs_witness :
  determine_response (L := converting_library) alice_last true
    = Ok (mkFile "avatars/alice.svg" [Byte.x3c], "image/svg+xml") /\
  determine_response (L := converting_library) alice_last false
    = Ok (mkFile "avatars/alice.png" [Byte.x89], "image/png") /\
  determine_response (L := converting_library) alice_first false
    = Raise (no_file "png") /\
  determine_response (L := converting_library) gone_row true
    = Raise (Exn (OtherException "FileNotFoundError") "No such file or directory").
Proof.
  destruct (determine_response_pairs (L := converting_library) alice_last) as (Hsvg & Hpng & _).
  destruct (determine_response_pairs (L := converting_library) alice_first)
    as (_ & _ & _ & _ & Habsent & _).
  destruct (determine_response_pairs (L := converting_library) gone_row)
    as (_ & _ & _ & _ & _ & Hgone).
  split; [apply Hsvg; reflexivity|split; [apply Hpng; reflexivity|split]].
  - apply (Habsent false). reflexivity.
  - apply (Hgone true (mkFile "avatars/gone.svg" [])); reflexivity.
Defined.

Lemma exceptions_caught_inside_try_only_witness :
  fst (convert_field (L := raising_library) alice_last (svg alice_last) "svg" "png" empty_world)
    = Ok None /\
  create (L := converting_library) (Some alice) broken_config empty_world
    = (Raise (Exn AttributeError "'str' object has no attribute 'get'"), empty_world) /\
  fst (github_avatar (L := converting_library) None [Byte.x01] empty_world)
    = Raise (Exn AttributeError "'NoneType' object has no attribute 'handle'").
Proof.
  destruct (exceptions_caught_inside_try_only (L := raising_library)) as (Hconvert & _).
  destruct (exceptions_caught_inside_try_only (L := converting_library))
    as (_ & _ & Hcreate & _ & Hgithub).
  split; [|split].
  - eapply (proj2 (Hconvert alice_last (svg alice_last) "svg" "png" empty_world)); reflexivity.
  - apply Hcreate. reflexivity.
  - apply (Hgithub [Byte.x01] empty_world "c3d4"); [reflexivity|].
    intros row (Hin & _). destruct Hin.
Defined.


(** ** Inputs on which the statements of the specification fail *)

(** C4 as stated fails: [github_avatar] with no profile raises, and
    [create] on a configuration with a layer entry that is not a dict
    raises too. *)
Lemma operations_can_raise :
  github_avatar (L := converting_library) None [Byte.x01] empty_world
    = (Raise (Exn AttributeError "'NoneType' object has no attribute 'handle'"),
       {| rows := []; next_pk := 1; queries := [(None, "c3d4")]; calls := []; saved := [];
          log := []; drawn := 0 |}) /\
  create (L := converting_library) (Some alice) broken_config empty_world
    = (Raise (Exn AttributeError "'str' object has no attribute 'get'"), empty_world).
Proof. split; reflexivity. Qed.


(** C6 as stated fails: when the conversion succeeds and the hash
    computation raises, the avatar [create] returns has the converted file
    in its PNG field, not the value the field had before the conversion. *)
Lemma create_keeps_png_when_hash_fails :
  hash_of_png (L := unhashable_library) (Some (mkFile "alice.png" png_bytes))
    = Raise (Exn (OtherException "OSError") "cannot identify image file") /\
  exists a0 w0 a w',
    create_from_config (L := unhashable_library)
      (mkCustomAvatar (new_base (Some alice) "") false sample_config) empty_world
      = (Ok a0, w0) /\
    create (L := unhashable_library) (Some alice) sample_config empty_world
      = (Ok (Custom a), w') /\
    png (custom_base a0) = None /\
    png (custom_base a) = Some (mkFile "alice.png" png_bytes) /\
    png (custom_base a) <> png (custom_base a0).
Proof.
  split; [reflexivity|].
  eexists. eexists. eexists. eexists.
  split; [reflexivity|split; [reflexivity|]].
  simpl. repeat split. discriminate.
Qed.

(** C7 as stated fails: the avatar [github_avatar] stores has one format.
    The row it inserts has no SVG and the only file it saves is the PNG;
    the SVG is set on the returned object alone. *)
Lemma social_avatar_stored_without_svg :
  exists a w',
    github_avatar (L := converting_library) (Some bob) [Byte.x01] stored_world
      = (Ok (Social (mkSocialAvatar a)), w') /\
    svg a = Some (mkFile "bob.svg" png_bytes) /\
    rows w' = [alice_first; nobody_row; alice_last;
               mkBaseAvatar (Some 4) false (Some bob) None
                            (Some (mkFile "avatars/bob.png" [Byte.x01])) "c3d4"] /\
    saved w' = [("bob.png", [Byte.x01])].
Proof. eexists. eexists. split; [cbv; reflexivity|]. repeat split. Qed.

(** * Further properties of the methods *)

Section UrlFacts.

Context {L : Library}.

(** [get_avatar_url] always returns, and the result depends on the profile
    only: [BASE_URL] followed by [dynamic/avatar/] and the handle of the
    profile, or ['Self'] when the avatar has no profile; the probe of
    [self.svg.url] never changes the outcome. *)
Theorem get_avatar_url_handle_or_self (BASE_URL : string) (self : BaseAvatar) :
  get_avatar_url BASE_URL self =
  Ok (BASE_URL ++ "dynamic/avatar/" ++
      match profile self with
      | Some p => handle p
      | None => "Self"
      end).
Proof.
  unfold get_avatar_url, ff_url, require_file.
  assert (Hprobe :
            match
              match
                match svg self with
                | Some x => if str_bool (fname x) then Ok x else Raise (no_file "svg")
                | None => Raise (no_file "svg")
                end
              with
              | Ok x => Ok (storage_url (fname x))
              | Raise e => Raise e
              end
            with
            | Ok _ => Ok tt
            | Raise e => match exn_cls e with ValueError => Ok tt | _ => Raise e end
            end = Ok tt).
  { destruct (svg self) as [x|]; [destruct (str_bool (fname x))|]; reflexivity. }
  rewrite Hprobe. destruct (profile self); reflexivity.
Qed.

(** What can be served is what [avatar_url] points to: when the PNG can be
    served, [avatar_url] is the URL of that very file; when the PNG field is
    empty and the SVG can be served, it is the URL of the SVG; and it is the
    empty string only when neither [determine_response] call returns. *)
Theorem avatar_url_matches_response (self : BaseAvatar) :
  (forall f content_type,
      determine_response self false = Ok (f, content_type) ->
      avatar_url self = Ok (storage_url (fname f))) /\
  (forall f content_type,
      determine_response self true = Ok (f, content_type) ->
      ff_bool (png self) = false ->
      avatar_url self = Ok (storage_url (fname f))) /\
  (ff_bool (png self) = false ->
   ff_bool (svg self) = false ->
   avatar_url self = Ok "" /\
   determine_response self false = Raise (no_file "png") /\
   determine_response self true = Raise (no_file "svg")).
Proof.
  unfold determine_response, avatar_url, ff_url, ff_file, require_file, ff_bool. simpl.
  split; [|split].
  - intros f ct. destruct (png self) as [x|]; [|discriminate].
    destruct (str_bool (fname x)); simpl; [|discriminate].
    destruct (file_open x); [discriminate|].
    intros H. injection H as <- _. reflexivity.
  - intros f ct. destruct (svg self) as [x|]; [|discriminate].
    destruct (str_bool (fname x)) eqn:Hx; simpl; [|discriminate].
    destruct (file_open x); [discriminate|].
    intros H Hpng. injection H as <- _.
    destruct (png self) as [y|]; [rewrite Hpng|]; reflexivity.
  - intros Hpng Hsvg.
    destruct (png self) as [y|]; [rewrite Hpng|];
      (destruct (svg self) as [x|]; [rewrite Hsvg|]); repeat split; reflexivity.
Qed.

End UrlFacts.

Section LookupOrder.

Lemma last_by_pk_fold_max (qs : list BaseAvatar) :
  forall (acc : option BaseAvatar) (r : BaseAvatar),
    fold_left
      (fun acc row =>
         match acc with
         | None => Some row
         | Some best => if (pk_of best <=? pk_of row)%nat then Some row else Some best
         end) qs acc = Some r ->
    (forall x, In x qs -> pk_of x <= pk_of r) /\
    (forall a, acc = Some a -> pk_of a <= pk_of r).
Proof.
  induction qs as [|row qs IH]; intros acc r H; simpl in H.
  - split; [intros x []|]. intros a Ha. rewrite Ha in H. injection H as ->. lia.
  - apply IH in H. destruct H as [Hqs Hacc]. split.
    + intros x [Hx|Hx]; [subst x|apply Hqs, Hx].
      destruct acc as [best|].
      * destruct (pk_of best <=? pk_of row)%nat eqn:Hle.
        -- apply (Hacc row eq_refl).
        -- apply Nat.leb_gt in Hle. specialize (Hacc best eq_refl). lia.
      * apply (Hacc row eq_refl).
    + intros a ->. destruct (pk_of a <=? pk_of row)%nat eqn:Hle.
      * apply Nat.leb_le in Hle. specialize (Hacc row eq_refl). lia.
      * apply (Hacc a eq_refl).
Qed.

Lemma find_similar_found (self : BaseAvatar) (w : World) (r : BaseAvatar) (w' : World) :
  find_similar self w = (Ok (Some r), w') ->
  hash self <> "" /\
  last_by_pk (filter (matches (profile self) (hash self)) (rows w)) = Some r /\
  duplicate_of (profile self) (hash self) w r /\
  rows w' = rows w /\ next_pk w' = next_pk w.
Proof.
  unfold find_similar, str_bool.
  destruct (String.eqb_spec (hash self) "") as [He|Hne]; simpl.
  - discriminate.
  - unfold objects_filter_last. intros H. injection H as H <-.
    split; [exact Hne|split; [exact H|split; [|split; reflexivity]]].
    apply matches_duplicate, last_by_pk_In, H.
Qed.

Lemma find_similar_frame (self : BaseAvatar) (w : World) :
  let w' := snd (find_similar self w) in
  is_ok (fst (find_similar self w)) = true /\
  rows w' = rows w /\ next_pk w' = next_pk w /\ saved w' = saved w /\
  calls w' = calls w /\ log w' = log w /\ drawn w' = drawn w.
Proof.
  unfold find_similar. destruct (str_bool (hash self)); simpl; repeat split; reflexivity.
Qed.

(** With a hash set, [find_similar] issues exactly one lookup, for the
    profile and the hash of the avatar, and always returns.  A row it
    returns is a stored duplicate whose key is the greatest among the stored
    duplicates ([.last()] on the unordered queryset); it returns [None]
    exactly when no duplicate is stored. *)
Theorem find_similar_greatest_key (self : BaseAvatar) (w : World) :
  hash self <> "" ->
  queries (snd (find_similar self w)) = (queries w ++ [(profile self, hash self)])%list /\
  is_ok (fst (find_similar self w)) = true /\
  (forall dup,
      fst (find_similar self w) = Ok (Some dup) ->
      duplicate_of (profile self) (hash self) w dup /\
      forall row, duplicate_of (profile self) (hash self) w row -> pk_of row <= pk_of dup) /\
  (fst (find_similar self w) = Ok None <->
   forall row, ~ duplicate_of (profile self) (hash self) w row).
Proof.
  intros Hh. pose proof Hh as Hb. apply String.eqb_neq in Hb.
  unfold find_similar, str_bool. rewrite Hb. simpl.
  split; [reflexivity|split; [reflexivity|split]].
  - intros dup H. injection H as H. split.
    + apply matches_duplicate, last_by_pk_In, H.
    + intros row Hrow. apply matches_duplicate in Hrow.
      unfold last_by_pk in H. apply last_by_pk_fold_max in H. apply (proj1 H), Hrow.
  - split.
    + intros H row Hrow. injection H as H. apply last_by_pk_None in H.
      apply matches_duplicate in Hrow. rewrite H in Hrow. destruct Hrow.
    + intros Hfresh. f_equal. apply last_by_pk_None.
      destruct (filter _ (rows w)) as [|row rest] eqn:Hf; [reflexivity|].
      exfalso. apply (Hfresh row), matches_duplicate. rewrite Hf. left. reflexivity.
Qed.

End LookupOrder.

Section TableFacts.

Context {L : Library}.

Lemma create_from_config_frame (self : CustomAvatar) (w : World) :
  let w' := snd (create_from_config self w) in
  rows w' = rows w /\ next_pk w' = next_pk w /\ queries w' = queries w /\
  calls w' = calls w /\ log w' = log w.
Proof.
  unfold create_from_config. run_py.
  destruct (compose_figure (config self)) as [fig|e]; simpl; [|repeat split; reflexivity].
  destruct (figure_save fig) as [content|e]; simpl; [|repeat split; reflexivity].
  destruct (profile (custom_base self)) as [p|]; [destruct (str_bool (handle p))|];
    simpl; repeat split; reflexivity.
Qed.

Lemma create_try_frame (avatar : CustomAvatar) (w : World) :
  let a := snd (fst (create_try avatar w)) in
  let w' := snd (create_try avatar w) in
  rows w' = rows w /\ next_pk w' = next_pk w /\ saved w' = saved w /\
  id (custom_base a) = id (custom_base avatar) /\
  active (custom_base a) = active (custom_base avatar) /\
  recommended_by_staff a = recommended_by_staff avatar.
Proof.
  unfold create_try.
  pose proof (convert_field_world (custom_base avatar) (svg (custom_base avatar))
                                  "svg" "png" w) as W.
  destruct (convert_field _ _ _ _ w) as [[avatar_png|e] w1]; simpl in W |- *;
    destruct W as (Hr & Hn & _ & Hs & _).
  - destruct (rbind (ff_read "png" avatar_png) _) as [h|e]; simpl.
    + pose proof (find_similar_frame
                    (set_hash h (set_png avatar_png (custom_base avatar))) w1) as F.
      simpl in F. destruct F as (_ & Fr & Fn & Fs & _).
      destruct (find_similar _ w1) as [[s|e] w2]; simpl in *;
        repeat split; congruence.
    + repeat split; assumption.
  - repeat split; assumption.
Qed.

(** [create] never writes to the table: on every path, whether it returns
    the new avatar, returns a stored duplicate or raises, the stored rows
    and the key counter are as before; and a new avatar it returns is
    unsaved (no key), inactive and not recommended by staff. *)
Theorem create_does_not_save (p : option Profile) (config_json : json) (w : World) :
  rows (snd (create p config_json w)) = rows w /\
  next_pk (snd (create p config_json w)) = next_pk w /\
  forall a, fst (create p config_json w) = Ok (Custom a) ->
            id (custom_base a) = None /\
            active (custom_base a) = false /\
            recommended_by_staff a = false.
Proof.
  pose proof (create_from_config_frame
                (mkCustomAvatar (new_base p "") false config_json) w) as F.
  destruct (create_from_config (mkCustomAvatar (new_base p "") false config_json) w)
    as [[avatar|e] w0] eqn:Hcfc; simpl in F; destruct F as (Fr & Fn & _).
  - rewrite (create_after_config _ _ _ _ _ Hcfc).
    destruct (create_from_config_world _ _ _ _ Hcfc) as ((f & Ha & _) & _).
    pose proof (create_try_frame avatar w0) as T.
    destruct (create_try avatar w0) as [[[[s|]|e] a1] w1]; simpl in T;
      destruct T as (Tr & Tn & _ & Ti & Ta & Ts); rewrite Ha in Ti, Ta, Ts; simpl in *.
    + split; [congruence|split; [congruence|]]. intros a H. discriminate H.
    + split; [congruence|split; [congruence|]]. intros a H. injection H as <-.
      repeat split; assumption.
    + destruct (is_Exception e); simpl; (split; [congruence|split; [congruence|]]);
        intros a H; [|discriminate H].
      injection H as <-. repeat split; assumption.
  - unfold create. rewrite Hcfc. simpl.
    split; [assumption|split; [assumption|]]. intros a H. discriminate H.
Qed.

(** [select] always returns and has no effect but the lookup: it stores
    nothing, saves no file and logs nothing.  The copy it returns takes the
    configuration and the files of the original but not its key: it is
    unsaved, inactive and not recommended by staff, whatever the original
    was.  With an empty hash it makes no lookup and returns the copy. *)
Theorem select_copies_without_saving (self : CustomAvatar) (p : option Profile) (w : World) :
  let w' := snd (select self p w) in
  is_ok (fst (select self p w)) = true /\
  rows w' = rows w /\ next_pk w' = next_pk w /\ saved w' = saved w /\ log w' = log w /\
  (forall a, fst (select self p w) = Ok (Custom a) ->
             id (custom_base a) = None /\
             active (custom_base a) = false /\
             recommended_by_staff a = false /\
             config a = config self) /\
  (hash (custom_base self) = "" ->
   exists a, select self p w = (Ok (Custom a), w) /\ profile (custom_base a) = p).
Proof.
  unfold select, bind, ret.
  match goal with |- context [find_similar ?b w] => set (copy := b) end.
  pose proof (find_similar_frame copy w) as F. simpl in F.
  destruct F as (Fok & Fr & Fn & Fs & _ & Fl & _).
  split; [|split; [|split; [|split; [|split; [|split]]]]].
  - destruct (find_similar copy w) as [[[s|]|e] w0]; simpl in *; congruence.
  - destruct (find_similar copy w) as [[[s|]|e] w0]; simpl in *; congruence.
  - destruct (find_similar copy w) as [[[s|]|e] w0]; simpl in *; congruence.
  - destruct (find_similar copy w) as [[[s|]|e] w0]; simpl in *; congruence.
  - destruct (find_similar copy w) as [[[s|]|e] w0]; simpl in *; congruence.
  - intros a. destruct (find_similar copy w) as [[[s|]|e] w0]; simpl; try discriminate.
    intros H. injection H as <-. repeat split.
  - intros Hh. unfold find_similar. subst copy. simpl. rewrite Hh. simpl.
    eexists. split; reflexivity.
Qed.

(** Deduplication never crosses profiles or hashes: a stored row that
    [select], [github_avatar] or [create] returns in place of the new avatar
    was stored before the call, belongs to the profile that was passed and
    has a non-empty hash (for [select] the hash of the original, for
    [github_avatar] the hash of the image). *)
Theorem returned_rows_are_duplicates :
  (forall self p w r w',
      select self p w = (Ok (Base r), w') ->
      hash (custom_base self) <> "" /\ duplicate_of p (hash (custom_base self)) w r) /\
  (forall p avatar_img w r w',
      github_avatar p avatar_img w = (Ok (Base r), w') ->
      hash r <> "" /\ calculate_hash avatar_img = Ok (hash r) /\
      duplicate_of p (hash r) w r /\ rows w' = rows w) /\
  (forall p config_json w r w',
      create p config_json w = (Ok (Base r), w') ->
      hash r <> "" /\ duplicate_of p (hash r) w r).
Proof.
  split; [|split].
  - intros self p w r w' H. unfold select, bind, ret in H.
    match type of H with context [find_similar ?b w] => set (copy := b) in * end.
    destruct (find_similar copy w) as [[[s|]|e] w0] eqn:Hf; try discriminate H.
    injection H as -> ->.
    destruct (find_similar_found _ _ _ _ Hf) as (Hh & _ & Hd & _). split; assumption.
  - intros p avatar_img w r w' H. unfold github_avatar, bind, lift, ret in H.
    destruct (calculate_hash avatar_img) as [h|e] eqn:Hh; [|discriminate H].
    destruct (find_similar (new_base p h) w) as [[[s|]|e] w0] eqn:Hf.
    + injection H as -> ->.
      destruct (find_similar_found _ _ _ _ Hf) as (Hne & _ & Hd & Hr & _). simpl in *.
      destruct Hd as (Hin & Hp & Heq). subst h.
      repeat split; assumption.
    + destruct (profile_handle p); [|discriminate H].
      destruct (get_temp_image_file avatar_img); [|discriminate H].
      unfold storage_save, model_save in H. simpl in H.
      destruct (convert_field _ _ _ _ _) as [[x|x] y]; discriminate H.
    + discriminate H.
  - intros p config_json w r w' H.
    destruct (create_from_config (mkCustomAvatar (new_base p "") false config_json) w)
      as [[avatar|e] w0] eqn:Hcfc.
    + rewrite (create_after_config _ _ _ _ _ Hcfc) in H.
      destruct (create_from_config_world _ _ _ _ Hcfc) as ((f & Ha & _) & Hrows & _).
      subst avatar. unfold create_try in H.
      match type of H with context [convert_field ?s ?src ?i ?o w0] =>
        pose proof (convert_field_world s src i o w0) as W;
        destruct (convert_field s src i o w0) as [[avatar_png|e] w1]
      end; simpl in W; destruct W as (Wr & _).
      * destruct (rbind (ff_read "png" _) _) as [h|e].
        -- match type of H with context [find_similar ?b w1] =>
             destruct (find_similar b w1) as [[[s|]|e] w2] eqn:Hf
           end.
           ++ injection H as -> ->.
              destruct (find_similar_found _ _ _ _ Hf) as (Hne & _ & Hd & _). simpl in *.
              destruct Hd as (Hin & Hp & Heq). subst h.
              split; [assumption|]. split; [congruence|split; [assumption|reflexivity]].
           ++ discriminate H.
           ++ destruct (is_Exception e); discriminate H.
        -- destruct (is_Exception e); discriminate H.
      * destruct (is_Exception e); discriminate H.
    + unfold create in H. rewrite Hcfc in H. discriminate H.
Qed.

End TableFacts.

Section GithubPersistence.

Context {L : Library}.

Lemma same_profile_refl (p : option Profile) : same_profile p p = true.
Proof. destruct p as [q|]; simpl; [apply Nat.eqb_refl|reflexivity]. Qed.

(** What [github_avatar] does after the lookup found nothing. *)
Lemma github_avatar_fresh_run (p : option Profile) (avatar_img : Image) (w : World)
      (h : string) (w0 : World) :
  calculate_hash avatar_img = Ok h ->
  find_similar (new_base p h) w = (Ok None, w0) ->
  github_avatar p avatar_img w =
  match profile_handle p with
  | Raise e => (Raise e, w0)
  | Ok name =>
      match get_temp_image_file avatar_img with
      | Raise e => (Raise e, w0)
      | Ok content =>
          let f := mkFile (fst (stored_as w0 (new_base p h) (name ++ ".png"))) content in
          let avatar1 := set_id (Some (next_pk w0)) (set_png (Some f) (new_base p h)) in
          let w1 := {| rows := (rows w0 ++ [avatar1])%list; next_pk := S (next_pk w0);
                       queries := queries w0; calls := calls w0;
                       saved := (saved w0 ++ [((name ++ ".png")%string, content)])%list;
                       log := log w0;
                       drawn := drawn w0 + snd (stored_as w0 (new_base p h) (name ++ ".png")) |} in
          match convert_field avatar1 (Some f) "png" "svg" w1 with
          | (Ok avatar_svg, w2) =>
              (Ok (Social (mkSocialAvatar (set_svg avatar_svg avatar1))), w2)
          | (Raise e, w2) => (Raise e, w2)
          end
      end
  end.
Proof.
  intros Hh Hf. unfold github_avatar, bind, lift, ret. rewrite Hh, Hf.
  destruct (profile_handle p) as [name|e]; [|reflexivity].
  destruct (get_temp_image_file avatar_img) as [content|e]; [|reflexivity].
  unfold storage_save, model_save. simpl.
  destruct (convert_field _ _ _ _ _) as [[s|e] w2]; reflexivity.
Qed.

Lemma github_avatar_new_inv
      (p : option Profile) (avatar_img : Image) (w : World) (s : SocialAvatar) (w' : World) :
  github_avatar p avatar_img w = (Ok (Social s), w') ->
  calculate_hash avatar_img = Ok (hash (social_base s)) /\
  profile (social_base s) = p /\
  (hash (social_base s) <> "" -> filter (matches p (hash (social_base s))) (rows w) = []) /\
  rows w' = (rows w ++ [set_svg None (social_base s)])%list /\
  id (social_base s) = Some (next_pk w) /\
  next_pk w' = S (next_pk w) /\
  active (social_base s) = false.
Proof.
  intros H.
  destruct (calculate_hash avatar_img) as [h|e] eqn:Hh;
    [|unfold github_avatar, bind, lift in H; rewrite Hh in H; discriminate H].
  pose proof (find_similar_frame (new_base p h) w) as F. simpl in F.
  destruct (find_similar (new_base p h) w) as [[[r|]|e] w0] eqn:Hf.
  - unfold github_avatar, bind, lift, ret in H. rewrite Hh, Hf in H. discriminate H.
  - rewrite (github_avatar_fresh_run _ _ _ _ _ Hh Hf) in H.
    destruct (profile_handle p) as [name|e]; [|discriminate H].
    destruct (get_temp_image_file avatar_img) as [content|e]; [|discriminate H].
    simpl in H, F. destruct F as (_ & Fr & Fn & _).
    match type of H with context [convert_field ?a ?src ?i ?o ?w1] =>
      pose proof (convert_field_world a src i o w1) as W;
      destruct (convert_field a src i o w1) as [[avatar_svg|e] w2]
    end; [|discriminate H].
    simpl in W. destruct W as (Wr & Wn & _).
    injection H as <- <-. simpl. rewrite Wr, Wn, Fr, Fn.
    split; [reflexivity|split; [reflexivity|split; [|repeat split]]].
    intros Hne. apply String.eqb_neq in Hne.
    unfold find_similar, str_bool in Hf. simpl in Hf. rewrite Hne in Hf. simpl in Hf.
    unfold objects_filter_last in Hf. injection Hf as Hl _.
    apply last_by_pk_None, Hl.
  - unfold github_avatar, bind, lift, ret in H. rewrite Hh, Hf in H. discriminate H.
Qed.

(** [github_avatar] saves the avatar before the SVG exists: when it returns
    a new avatar, exactly one row was added to the table, with the next key,
    and that row is the returned avatar without its SVG; the SVG lives only
    in the returned object. *)
Theorem github_avatar_stores_row_without_svg
        (p : option Profile) (avatar_img : Image) (w : World) (s : SocialAvatar) (w' : World) :
  github_avatar p avatar_img w = (Ok (Social s), w') ->
  rows w' = (rows w ++ [set_svg None (social_base s)])%list /\
  id (social_base s) = Some (next_pk w) /\
  next_pk w' = S (next_pk w) /\
  active (social_base s) = false.
Proof.
  intros H.
  destruct (github_avatar_new_inv p avatar_img w s w' H) as (_ & _ & _ & Hr & Hi & Hn & Ha).
  repeat split; assumption.
Qed.

(** Calling [github_avatar] again with the same profile and image finds the
    avatar the first call stored: when the first call returned a new avatar
    with a non-empty hash, the second returns the row the first one
    inserted (which has no SVG) and adds nothing to the table. *)
Theorem github_avatar_twice
        (p : option Profile) (avatar_img : Image) (w : World) (s : SocialAvatar) (w1 : World) :
  github_avatar p avatar_img w = (Ok (Social s), w1) ->
  hash (social_base s) <> "" ->
  fst (github_avatar p avatar_img w1) = Ok (Base (set_svg None (social_base s))) /\
  rows (snd (github_avatar p avatar_img w1)) = rows w1.
Proof.
  intros H Hne.
  destruct (github_avatar_new_inv p avatar_img w s w1 H)
    as (Hh & Hprof & Hnil & Hrows & _).
  specialize (Hnil Hne).
  assert (Hfilter : filter (matches p (hash (social_base s))) (rows w1)
                    = [set_svg None (social_base s)]).
  { rewrite Hrows, filter_app, Hnil. simpl. unfold matches. simpl.
    rewrite Hprof, same_profile_refl, String.eqb_refl. reflexivity. }
  unfold github_avatar, bind, lift, ret. rewrite Hh.
  unfold find_similar, str_bool. simpl.
  apply String.eqb_neq in Hne. rewrite Hne. simpl.
  unfold objects_filter_last. rewrite Hfilter. simpl. split; reflexivity.
Qed.

(** Without a profile [github_avatar] can only deduplicate: given the hash
    of the image, the call returns exactly when the hash is non-empty and a
    stored avatar without profile has it; otherwise it raises the
    [AttributeError] of [profile.handle], after the lookup and before
    anything is written. *)
Theorem github_avatar_without_profile (avatar_img : Image) (w : World) (h : string) :
  calculate_hash avatar_img = Ok h ->
  (is_ok (fst (github_avatar None avatar_img w)) = true <->
   h <> "" /\ exists row, duplicate_of None h w row) /\
  (is_ok (fst (github_avatar None avatar_img w)) = false ->
   fst (github_avatar None avatar_img w)
     = Raise (Exn AttributeError "'NoneType' object has no attribute 'handle'") /\
   rows (snd (github_avatar None avatar_img w)) = rows w /\
   saved (snd (github_avatar None avatar_img w)) = saved w).
Proof.
  intros Hh.
  pose proof (find_similar_frame (new_base None h) w) as F. simpl in F.
  destruct F as (_ & Fr & _ & Fs & _).
  destruct (find_similar (new_base None h) w) as [[[r|]|e] w0] eqn:Hf.
  - assert (Hrun : github_avatar None avatar_img w = (Ok (Base r), w0)).
    { unfold github_avatar, bind, lift, ret. rewrite Hh, Hf. reflexivity. }
    rewrite Hrun. simpl. split; [|discriminate].
    destruct (find_similar_found _ _ _ _ Hf) as (Hne & _ & Hd & _). simpl in *.
    split; [intros _|reflexivity]. split; [exact Hne|exists r; exact Hd].
  - rewrite (github_avatar_fresh_run _ _ _ _ _ Hh Hf). simpl in *.
    split; [|intros _; repeat split; assumption].
    split; [discriminate|]. intros (Hne & row & Hrow). exfalso.
    destruct (find_similar_duplicate (new_base None h) w row Hne Hrow) as (dup & _ & _ & Hd).
    rewrite Hf in Hd. discriminate Hd.
  - pose proof (find_similar_frame (new_base None h) w) as F. rewrite Hf in F.
    destruct F as (F & _). discriminate F.
Qed.

End GithubPersistence.

Section ComposeFacts.

Context {L : Library}.

Lemma component_path_ok (v : json) (path : string) :
  component_path v = Ok path ->
  exists d, v = JObj d /\
            path = py_str (dict_get d "component_type") ++ "/" ++ py_str (dict_get d "svg_asset").
Proof.
  destruct v; try discriminate. simpl. intros H. injection H as <-.
  eexists. split; reflexivity.
Qed.

Lemma append_components_ok (items : list (string * json)) :
  forall (components res : list (Component Element)),
    append_components items components = Ok res ->
    exists es, Forall2 built_from (layer_entries items) es /\
               res = (components ++ map Layer es)%list.
Proof.
  induction items as [|[k v] items IH]; intros components res H.
  - simpl in H. injection H as <-. exists []. split; [constructor|].
    simpl. rewrite app_nil_r. reflexivity.
  - cbn [append_components] in H. unfold layer_entries. cbn [filter fst].
    destruct (negb (str_in k excluded_keys)).
    + destruct (component_path v) as [path|e] eqn:Hpath; [|discriminate H].
      cbn [rbind] in H.
      destruct (build_avatar_component path ICON_SIZE) as [c|e] eqn:Hc; [|discriminate H].
      cbn [rbind] in H.
      destruct (IH _ _ H) as (es & Hes & ->).
      destruct (component_path_ok _ _ Hpath) as (d & -> & ->).
      exists (c :: es). split.
      * constructor; [|exact Hes]. exists d. split; [reflexivity|exact Hc].
      * rewrite <- app_assoc. reflexivity.
    + apply IH, H.
Qed.

(** [compose_figure] succeeds exactly on the configurations whose layer
    entries are all dicts that [build_avatar_component] accepts, and the
    figure is then the background line followed by their layers: no other
    figure is ever produced, and a configuration with one layer entry that
    is not a dict, or that the builder rejects, gives no figure at all. *)
Theorem compose_figure_exactly (entries : list (string * json)) (figure : Figure Element) :
  compose_figure (JObj entries) = Ok figure <->
  exists es,
    Forall2 built_from (layer_entries entries) es /\
    figure = mkFigure 215 215
               (background_line (dict_get entries "Background") :: map Layer es).
Proof.
  unfold compose_figure. cbn [json_get json_items rbind fst snd ICON_SIZE].
  split.
  - destruct (append_components entries _) as [res|e] eqn:H; [|discriminate].
    cbn [rbind]. intros Hf. injection Hf as <-.
    destruct (append_components_ok _ _ _ H) as (es & Hes & ->).
    exists es. split; [exact Hes|reflexivity].
  - intros (es & Hes & ->).
    rewrite (append_components_layers entries _ es Hes). reflexivity.
Qed.

Lemma color_key_excluded (k : string) :
  str_in k color_keys = true ->
  str_in k excluded_keys = true /\ (k =? "Background") = false.
Proof.
  unfold str_in, color_keys, excluded_keys. cbn [existsb].
  rewrite !orb_false_r.
  destruct (String.eqb_spec k "ClothingColor") as [->|_]; [split; reflexivity|].
  destruct (String.eqb_spec k "HairColor") as [->|_]; [split; reflexivity|].
  destruct (String.eqb_spec k "SkinTone") as [->|_]; [split; reflexivity|].
  discriminate.
Qed.

Lemma dict_get_without_colors (entries : list (string * json)) :
  dict_get (without_colors entries) "Background" = dict_get entries "Background".
Proof.
  induction entries as [|[k v] entries IH]; [reflexivity|].
  unfold without_colors in *. cbn [filter fst].
  destruct (str_in k color_keys) eqn:Hk; cbn [negb dict_get].
  - destruct (color_key_excluded k Hk) as [_ ->]. exact IH.
  - rewrite IH. reflexivity.
Qed.

Lemma append_components_without_colors (entries : list (string * json)) :
  forall components : list (Component Element),
    append_components (without_colors entries) components
    = append_components entries components.
Proof.
  induction entries as [|[k v] entries IH]; intros components; [reflexivity|].
  unfold without_colors in *. cbn [filter fst].
  destruct (str_in k color_keys) eqn:Hk; cbn [negb append_components].
  - destruct (color_key_excluded k Hk) as [-> _]. cbn [negb]. apply IH.
  - destruct (negb (str_in k excluded_keys)); [|apply IH].
    destruct (component_path v) as [path|e]; [|reflexivity]. cbn [rbind].
    destruct (build_avatar_component path ICON_SIZE) as [c|e]; [|reflexivity].
    cbn [rbind]. apply IH.
Qed.

(** The colour entries are read by nothing: dropping the ['ClothingColor'],
    ['HairColor'] and ['SkinTone'] entries of a configuration, whatever
    their values, leaves the composed figure (or the exception raised) the
    same. *)
Theorem color_entries_are_ignored (entries : list (string * json)) :
  compose_figure (JObj (without_colors entries)) = compose_figure (JObj entries).
Proof.
  unfold compose_figure. cbn [json_get json_items rbind].
  rewrite dict_get_without_colors, append_components_without_colors. reflexivity.
Qed.

(** A configuration that is not a dict stops [create_from_config], and so
    [create], with the [AttributeError] of its missing [get], which names
    the type of the configuration, before anything happened; and an
    exception raised while composing or writing out the figure reaches the
    caller of [create_from_config] with the world untouched: no file was
    saved and no random byte drawn. *)
Theorem create_from_config_fails_cleanly :
  (forall self w e,
      rbind (compose_figure (config self)) figure_save = Raise e ->
      create_from_config self w = (Raise e, w)) /\
  (forall self w,
      (forall entries, config self <> JObj entries) ->
      create_from_config self w
        = (Raise (no_attribute (py_type_name (config self)) "get"), w)) /\
  (forall p config_json w,
      (forall entries, config_json <> JObj entries) ->
      create p config_json w
        = (Raise (no_attribute (py_type_name config_json) "get"), w)).
Proof.
  assert (Hnodict : forall self w,
             (forall entries, config self <> JObj entries) ->
             create_from_config self w
             = (Raise (no_attribute (py_type_name (config self)) "get"), w)).
  { intros self w Hcfg. unfold create_from_config, compose_figure, bind, lift.
    destruct (config self) as [| | | | | |entries]; try reflexivity.
    elim (Hcfg entries). reflexivity. }
  split; [|split].
  - intros self w e. unfold create_from_config. run_py.
    destruct (compose_figure (config self)) as [fig|e0]; cbn [rbind].
    + destruct (figure_save fig) as [content|e1]; [discriminate|].
      intros H. injection H as <-. reflexivity.
    + intros H. injection H as <-. reflexivity.
  - exact Hnodict.
  - intros p config_json w Hcfg. unfold create.
    rewrite (Hnodict (mkCustomAvatar (new_base p "") false config_json) w Hcfg).
    reflexivity.
Qed.

(** [create_from_config] saves exactly one file, the rendered figure, and
    changes nothing of the avatar but its SVG field.  The file is handed to
    the storage as [<handle>.svg] when the avatar has a profile with a
    non-empty handle, and otherwise as [<token>.svg] for a fresh token of 16
    hexadecimal characters (8 random bytes); the name it is stored under,
    and the random bytes finding that name takes, are the storage's, asked
    after the token was drawn. *)
Theorem create_from_config_saves_one_file
        (self : CustomAvatar) (w : World) (a : CustomAvatar) (w' : World) :
  create_from_config self w = (Ok a, w') ->
  exists name content w1,
    rbind (compose_figure (config self)) figure_save = Ok content /\
    saved w' = (saved w ++ [((name ++ ".svg")%string, content)])%list /\
    a = custom_with
          (set_svg (Some (mkFile (fst (stored_as w1 (custom_base self) (name ++ ".svg")))
                                 content))) self /\
    drawn w' = drawn w1 + snd (stored_as w1 (custom_base self) (name ++ ".svg")) /\
    saved w1 = saved w /\
    match profile (custom_base self) with
    | Some p =>
        if str_bool (handle p)
        then name = handle p /\ drawn w1 = drawn w
        else is_hex_token 8 name /\ drawn w1 = drawn w + 8
    | None => is_hex_token 8 name /\ drawn w1 = drawn w + 8
    end.
Proof.
  unfold create_from_config. run_py.
  destruct (compose_figure (config self)) as [fig|e]; [|discriminate]. cbn [rbind].
  destruct (figure_save fig) as [content|e]; [|discriminate].
  destruct (profile (custom_base self)) as [p|]; [destruct (str_bool (handle p))|];
    intros H; injection H as <- <-.
  - exists (handle p), content, w. repeat split.
  - eexists (hexlify (map (fun i => urandom (drawn w + i)) (seq 0 8))), content, _.
    split; [reflexivity|split; [reflexivity|split; [reflexivity|]]].
    split; [reflexivity|split; [reflexivity|]].
    split; [apply drawn_token|reflexivity].
  - eexists (hexlify (map (fun i => urandom (drawn w + i)) (seq 0 8))), content, _.
    split; [reflexivity|split; [reflexivity|split; [reflexivity|]]].
    split; [reflexivity|split; [reflexivity|]].
    split; [apply drawn_token|reflexivity].
Qed.

End ComposeFacts.

Section ConversionFacts.

Context {L : Library}.

(** A file comes out of [convert_field] only from the converter: when the
    method returns a file, the picked converter returned a stream, the
    content of the file is that stream and its name ends in
    [.<output_fmt>], so the file counts as present when assigned to a
    field.  The call never touches the table, the lookups or the saved
    files. *)
Theorem convert_field_file_origin self source input_fmt output_fmt w (f : File) :
  fst (convert_field self source input_fmt output_fmt w) = Ok (Some f) ->
  converted source input_fmt output_fmt = Ok (Some (fdata f)) /\
  (exists name, fname f = name ++ "." ++ output_fmt) /\
  ff_bool (Some f) = true /\
  rows (snd (convert_field self source input_fmt output_fmt w)) = rows w /\
  queries (snd (convert_field self source input_fmt output_fmt w)) = queries w /\
  saved (snd (convert_field self source input_fmt output_fmt w)) = saved w.
Proof.
  intros H.
  pose proof (convert_field_result self source input_fmt output_fmt w) as R.
  pose proof (convert_field_world self source input_fmt output_fmt w) as W.
  simpl in R, W. destruct W as (Wr & _ & Wq & Ws & _).
  rewrite H in R.
  destruct (converted source input_fmt output_fmt) as [[b|]|e].
  - destruct R as [_ R].
    assert (Hf : exists name, f = mkFile (name ++ "." ++ output_fmt) b).
    { destruct (profile self) as [p|].
      - injection R as ->. eexists. reflexivity.
      - destruct R as (t & _ & R). injection R as ->. eexists. reflexivity. }
    destruct Hf as (name & ->). simpl.
    split; [reflexivity|split; [exists name; reflexivity|split]].
    + apply dotted_name_nonempty.
    + repeat split; assumption.
  - destruct R as [R _]. discriminate R.
  - destruct (is_Exception e); destruct R as [R _]; discriminate R.
Qed.

(** [convert_field] logs exactly the failures it swallows: when the picked
    converter raises an [Exception] the log grows by the one record
    ['Error: (<message>) - Avatar PK: (<id>)'], with ['None'] for an unsaved
    avatar, and the method returns [None]; in every other case the log is as
    before. *)
Theorem convert_field_log self source input_fmt output_fmt w :
  let w' := snd (convert_field self source input_fmt output_fmt w) in
  (forall e, converted source input_fmt output_fmt = Raise e ->
             is_Exception e = true ->
             log w' = (log w ++ [conversion_error self e])%list /\
             fst (convert_field self source input_fmt output_fmt w) = Ok None) /\
  ((forall e, converted source input_fmt output_fmt = Raise e -> is_Exception e = false) ->
   log w' = log w).
Proof.
  unfold converted, picked, conversion_error. run_py.
  destruct (output_fmt =? "svg"); simpl;
    [destruct (convert_wand source input_fmt output_fmt) as [[b|]|e]
    |destruct (convert_img source input_fmt output_fmt) as [[b|]|e]];
    try (destruct (profile self)); simpl;
    (split; [intros e0 He0 Hexc; try discriminate He0|intros Hnone]);
    try reflexivity;
    try (injection He0 as <-; rewrite Hexc; simpl; split; reflexivity);
    rewrite (Hnone e eq_refl); reflexivity.
Qed.

(** The ordinary run of [create]: once the SVG is generated, the PNG
    converted and the hash computed, and no duplicate is stored, [create]
    returns the new avatar carrying the converted PNG and the hash, logs
    nothing, and issues one lookup when the hash is non-empty and none when
    it is empty. *)
Theorem create_returns_new_avatar
        (p : option Profile) (config_json : json) (w : World)
        (avatar : CustomAvatar) (w0 : World) (avatar_png : File) (w1 : World) (h : string) :
  create_from_config (mkCustomAvatar (new_base p "") false config_json) w = (Ok avatar, w0) ->
  convert_field (custom_base avatar) (svg (custom_base avatar)) "svg" "png" w0
    = (Ok (Some avatar_png), w1) ->
  rbind (image_open (fdata avatar_png)) calculate_hash = Ok h ->
  (forall row, ~ duplicate_of p h w row) ->
  exists w',
    create p config_json w
      = (Ok (Custom (custom_with (set_hash h)
                       (custom_with (set_png (Some avatar_png)) avatar))), w') /\
    log w' = log w1 /\
    (h <> "" -> queries w' = (queries w ++ [(p, h)])%list) /\
    (h = "" -> queries w' = queries w).
Proof.
  intros Hcfc Hconv Hhash Hfresh.
  destruct (create_from_config_world _ _ _ _ Hcfc) as ((f & -> & _) & Hrows & Hq & _).
  destruct (convert_field_some _ _ _ _ _ _ _ Hconv) as [_ Hread].
  pose proof (convert_field_world (custom_base (custom_with (set_svg (Some f))
                (mkCustomAvatar (new_base p "") false config_json))) (Some f) "svg" "png" w0) as W.
  simpl in Hconv, W. rewrite Hconv in W. simpl in W. destruct W as (Hrows1 & _ & Hq1 & _).
  set (avatar2 := set_hash h (set_png (Some avatar_png)
                    (set_svg (Some f) (new_base p "")))).
  assert (Hfresh1 : forall row, ~ duplicate_of (profile avatar2) (hash avatar2) w1 row).
  { intros row (Hin & Hp & Heq). apply (Hfresh row). simpl in *.
    split; [congruence|split; assumption]. }
  destruct (find_similar_fresh avatar2 w1 Hfresh1) as (Hnone & _ & _ & _ & _ & Hlog).
  unfold create. rewrite Hcfc. unfold create_try. simpl. rewrite Hconv. simpl.
  rewrite Hread. cbn [rbind]. rewrite Hhash.
  fold avatar2. destruct (find_similar avatar2 w1) as [r w2] eqn:Hf.
  simpl in Hnone, Hlog. subst r.
  exists w2. split; [reflexivity|split; [exact Hlog|]].
  unfold find_similar, str_bool in Hf. simpl in Hf.
  split.
  - intros Hne. apply String.eqb_neq in Hne. rewrite Hne in Hf. simpl in Hf.
    unfold objects_filter_last in Hf. injection Hf as _ <-. simpl. congruence.
  - intros ->. simpl in Hf. unfold ret in Hf. injection Hf as <-. congruence.
Qed.

End ConversionFacts.

Section FailedConversionFacts.

Context {L : Library}.

(** A failing SVG conversion does not stop [github_avatar]: when the wand
    converter raises an [Exception] on the saved PNG, the avatar is still
    stored and returned, without SVG, and the one error record that is
    logged names the key the avatar has just been given. *)
Theorem github_avatar_logs_failed_conversion
        (p : Profile) (avatar_img : Image) (w : World) (h : string) (content : bytes) (e : exn) :
  let stored_png :=
    mkFile (fst (stored_as w (new_base (Some p) h) (handle p ++ ".png"))) content in
  calculate_hash avatar_img = Ok h ->
  (forall row, ~ duplicate_of (Some p) h w row) ->
  get_temp_image_file avatar_img = Ok content ->
  convert_wand (Some stored_png) "png" "svg" = Raise e ->
  is_Exception e = true ->
  exists a w',
    github_avatar (Some p) avatar_img w = (Ok (Social (mkSocialAvatar a)), w') /\
    svg a = None /\
    png a = Some stored_png /\
    rows w' = (rows w ++ [a])%list /\
    id a = Some (next_pk w) /\
    log w' = (log w ++ [conversion_error a e])%list.
Proof.
  intros stored_png Hh Hfresh Htmp Hwand Hexc.
  destruct (find_similar_fresh (new_base (Some p) h) w Hfresh)
    as (Hnone & Hr & Hn & _ & _ & Hl).
  pose proof (find_similar_storage (new_base (Some p) h) w (new_base (Some p) h)
                                   (handle p ++ ".png")) as Hst.
  destruct (find_similar (new_base (Some p) h) w) as [r w0] eqn:Hf.
  simpl in Hnone, Hr, Hn, Hl, Hst. subst r.
  rewrite (github_avatar_fresh_run _ _ _ _ _ Hh Hf). simpl. rewrite Htmp.
  rewrite Hst. fold stored_png.
  unfold convert_field, try_except, bind, call_converter_of. simpl.
  rewrite Hwand, Hexc. unfold logger, ret. simpl.
  eexists. eexists. split; [reflexivity|]. simpl.
  rewrite Hr, Hn, Hl. repeat split.
Qed.

(** When the converter raises inside [create], two records are logged, the
    error of [convert_field] (with ['None'] as key, the avatar being
    unsaved) and then the warning of [create], and the avatar is returned
    as [create_from_config] left it: without PNG and with an empty hash. *)
Theorem create_logs_failed_conversion
        (p : option Profile) (config_json : json) (w : World)
        (avatar : CustomAvatar) (w0 : World) (e : exn) :
  create_from_config (mkCustomAvatar (new_base p "") false config_json) w = (Ok avatar, w0) ->
  convert_img (svg (custom_base avatar)) "svg" "png" = Raise e ->
  is_Exception e = true ->
  exists w',
    create p config_json w = (Ok (Custom avatar), w') /\
    png (custom_base avatar) = None /\
    hash (custom_base avatar) = "" /\
    id (custom_base avatar) = None /\
    log w' = (log w ++ [conversion_error (custom_base avatar) e;
                        (WARNING, "There was error during avatar conversion")])%list.
Proof.
  intros Hcfc Himg Hexc.
  destruct (create_from_config_world _ _ _ _ Hcfc) as ((f & -> & _) & _ & _ & Hl & _).
  simpl in Himg.
  unfold create. rewrite Hcfc. unfold create_try. simpl.
  unfold convert_field, try_except, bind, call_converter_of. simpl.
  rewrite Himg, Hexc. unfold logger, ret. simpl.
  eexists. split; [reflexivity|]. simpl. rewrite Hl, <- app_assoc.
  repeat split.
Qed.

End FailedConversionFacts.

(** ** The further properties at concrete inputs *)

Lemma avatar_url_matches_response_witness :
  avatar_url (L := converting_library) alice_last = Ok "/media/avatars/alice.png" /\
  avatar_url (L := converting_library) alice_first = Ok "".
Proof.
  destruct (avatar_url_matches_response (L := converting_library) alice_last) as (Hpng & _).
  destruct (avatar_url_matches_response (L := converting_library) alice_first) as (_ & _ & Hno).
  split.
  - apply (Hpng (mkFile "avatars/alice.png" [Byte.x89]) "image/png"). reflexivity.
  - apply Hno; reflexivity.
Defined.

Lemma find_similar_greatest_key_witness :
  queries (snd (find_similar (new_base (Some alice) "c3d4") stored_world))
    = [(Some alice, "c3d4")] /\
  pk_of alice_first <= pk_of alice_last.
Proof.
  assert (Hne : hash (new_base (Some alice) "c3d4") <> "") by discriminate.
  destruct (find_similar_greatest_key (new_base (Some alice) "c3d4") stored_world Hne)
    as (Hq & _ & Hdup & _).
  destruct (Hdup alice_last eq_refl) as [_ Hmax].
  split; [exact Hq|]. apply Hmax. unfold duplicate_of. simpl. auto.
Defined.

Lemma create_does_not_save_witness :
  rows (snd (create (L := converting_library) (Some bob) sample_config stored_world))
    = [alice_first; nobody_row; alice_last] /\
  exists a,
    fst (create (L := converting_library) (Some bob) sample_config stored_world)
      = Ok (Custom a) /\
    id (custom_base a) = None.
Proof.
  destruct (create_does_not_save (L := converting_library) (Some bob) sample_config stored_world)
    as (Hrows & _ & Hnew).
  split; [exact Hrows|].
  eexists. split; [reflexivity|]. apply Hnew. reflexivity.
Defined.

Lemma select_copies_without_saving_witness :
  exists a,
    select (mkCustomAvatar (set_hash "" alice_last) true sample_config) (Some bob) stored_world
      = (Ok (Custom a), stored_world) /\
    profile (custom_base a) = Some bob.
Proof.
  apply (select_copies_without_saving
           (mkCustomAvatar (set_hash "" alice_last) true sample_config) (Some bob) stored_world).
  reflexivity.
Defined.

Lemma returned_rows_are_duplicates_witness :
  hash alice_last <> "" /\ duplicate_of (Some alice) (hash alice_last) stored_world alice_last.
Proof.
  destruct (create (L := converting_library) (Some alice) sample_config stored_world)
    as [r w'] eqn:Hrun.
  assert (Hr : r = Ok (Base alice_last)).
  { change r with (fst (r, w')). rewrite <- Hrun. reflexivity. }
  subst r.
  exact (proj2 (proj2 (returned_rows_are_duplicates (L := converting_library)))
               (Some alice) sample_config stored_world alice_last w' Hrun).
Defined.

Lemma github_avatar_stores_row_without_svg_witness :
  exists s w',
    github_avatar (L := converting_library) (Some bob) [Byte.x01] stored_world
      = (Ok (Social s), w') /\
    rows w' = [alice_first; nobody_row; alice_last; set_svg None (social_base s)] /\
    id (social_base s) = Some 4.
Proof.
  destruct (github_avatar (L := converting_library) (Some bob) [Byte.x01] stored_world)
    as [[[b|c|s]|e] w'] eqn:Hrun; try discriminate Hrun.
  destruct (github_avatar_stores_row_without_svg (L := converting_library)
              (Some bob) [Byte.x01] stored_world s w' Hrun) as (Hrows & Hid & _).
  exists s, w'. repeat split; assumption.
Defined.

Lemma github_avatar_twice_witness :
  exists s w1,
    github_avatar (L := converting_library) (Some bob) [Byte.x01] stored_world
      = (Ok (Social s), w1) /\
    fst (github_avatar (L := converting_library) (Some bob) [Byte.x01] w1)
      = Ok (Base (set_svg None (social_base s))).
Proof.
  destruct (github_avatar (L := converting_library) (Some bob) [Byte.x01] stored_world)
    as [[[b|c|s]|e] w1] eqn:Hrun; try discriminate Hrun.
  assert (Hne : hash (social_base s) <> "").
  { injection Hrun as <- _. discriminate. }
  exists s, w1. split; [reflexivity|].
  exact (proj1 (github_avatar_twice (L := converting_library)
                  (Some bob) [Byte.x01] stored_world s w1 Hrun Hne)).
Defined.

Lemma github_avatar_without_profile_witness :
  is_ok (fst (github_avatar (L := converting_library) None [Byte.x01] stored_world)) = true /\
  fst (github_avatar (L := converting_library) None [Byte.x01] empty_world)
    = Raise (Exn AttributeError "'NoneType' object has no attribute 'handle'").
Proof.
  destruct (github_avatar_without_profile (L := converting_library)
              [Byte.x01] stored_world "c3d4" eq_refl) as (Hiff & _).
  destruct (github_avatar_without_profile (L := converting_library)
              [Byte.x01] empty_world "c3d4" eq_refl) as (_ & Hraise).
  split.
  - apply Hiff. split; [discriminate|]. exists nobody_row. unfold duplicate_of. simpl. auto.
  - apply Hraise. reflexivity.
Defined.

Lemma compose_figure_exactly_witness :
  compose_figure (L := converting_library) (JObj [("Hat", JObj [])])
  = Ok (mkFigure 215 215
          [ Line [(Qmake 0 1, Qmake 215 2); (Qmake 215 1, Qmake 215 2)] "215px" "#None";
            Layer "None/None" ]).
Proof.
  apply (proj2 (compose_figure_exactly (L := converting_library) [("Hat", JObj [])] _)).
  exists ["None/None"]. split; [|reflexivity].
  repeat constructor. exists []. split; reflexivity.
Defined.

Lemma create_from_config_fails_cleanly_witness :
  create (L := converting_library) (Some alice) (JArr []) stored_world
    = (Raise (Exn AttributeError "'list' object has no attribute 'get'"), stored_world).
Proof.
  apply (proj2 (proj2 (create_from_config_fails_cleanly (L := converting_library)))
               (Some alice) (JArr []) stored_world).
  intros entries H. discriminate H.
Defined.

Lemma create_from_config_saves_one_file_witness :
  exists a w',
    create_from_config (L := converting_library)
      (mkCustomAvatar (new_base (Some alice) "") false sample_config) saved_world
      = (Ok a, w') /\
    saved w' = [("alice.svg", [Byte.x3c; Byte.x3c; Byte.x3c]);
                ("alice.svg", [Byte.x3c; Byte.x3c; Byte.x3c])] /\
    svg (custom_base a)
      = Some (mkFile "avatars/alice_0b30557.svg" [Byte.x3c; Byte.x3c; Byte.x3c]) /\
    drawn w' = 4.
Proof.
  destruct (create_from_config (L := converting_library)
              (mkCustomAvatar (new_base (Some alice) "") false sample_config) saved_world)
    as [[a|e] w'] eqn:Hrun; try discriminate Hrun.
  destruct (create_from_config_saves_one_file (L := converting_library) _ _ _ _ Hrun)
    as (name & content & w1 & Hc & Hs & Ha & Hd & Hs1 & Hn).
  simpl in Hn. destruct Hn as [-> Hd1].
  injection Hc as <-.
  unfold stored_as in Ha, Hd. rewrite Hs1, Hd1 in Ha, Hd.
  exists a, w'. split; [reflexivity|split; [exact Hs|split]].
  - rewrite Ha. reflexivity.
  - rewrite Hd. reflexivity.
Defined.

Lemma convert_field_file_origin_witness :
  converted (L := converting_library) None "png" "svg" = Ok (Some png_bytes) /\
  ff_bool (Some (mkFile "alice.svg" png_bytes)) = true.
Proof.
  destruct (convert_field_file_origin (L := converting_library)
              (new_base (Some alice) "") None "png" "svg" empty_world
              (mkFile "alice.svg" png_bytes) eq_refl) as (Hc & _ & Hb & _).
  split; assumption.
Defined.

Lemma convert_field_log_witness :
  log (snd (convert_field (L := raising_library) alice_last None "svg" "png" empty_world))
    = [(ERROR, "Error: (bad blob) - Avatar PK: (3)")] /\
  log (snd (convert_field (L := converting_library) alice_last None "svg" "png" empty_world))
    = [].
Proof.
  destruct (convert_field_log (L := raising_library) alice_last None "svg" "png" empty_world)
    as (Hraise & _).
  destruct (convert_field_log (L := converting_library) alice_last None "svg" "png" empty_world)
    as (_ & Hquiet).
  split.
  - apply (Hraise (Exn (OtherException "WandError") "bad blob")); reflexivity.
  - apply Hquiet. intros e H. discriminate H.
Defined.

Lemma create_returns_new_avatar_witness :
  exists a w',
    create (L := converting_library) (Some bob) sample_config stored_world
      = (Ok (Custom a), w') /\
    hash (custom_base a) = "c3d4" /\
    png (custom_base a) = Some (mkFile "bob.png" png_bytes) /\
    queries w' = [(Some bob, "c3d4")].
Proof.
  assert (Hfresh : forall row, ~ duplicate_of (Some bob) "c3d4" stored_world row).
  { intros row (Hin & Hp & _). simpl in Hin.
    destruct Hin as [<-|[<-|[<-|[]]]]; discriminate Hp. }
  edestruct (create_returns_new_avatar (L := converting_library)
               (Some bob) sample_config stored_world)
    as (w' & Hrun & _ & Hq & _);
    [reflexivity|reflexivity|reflexivity|exact Hfresh|].
  eexists. exists w'. split; [exact Hrun|].
  repeat split. apply Hq. discriminate.
Defined.

Lemma github_avatar_logs_failed_conversion_witness :
  exists a w',
    github_avatar (L := raising_library) (Some bob) [Byte.x01] stored_world
      = (Ok (Social (mkSocialAvatar a)), w') /\
    svg a = None /\
    log w' = [(ERROR, "Error: (bad blob) - Avatar PK: (4)")].
Proof.
  assert (Hfresh : forall row, ~ duplicate_of (Some bob) "c3d4" stored_world row).
  { intros row (Hin & Hp & _). simpl in Hin.
    destruct Hin as [<-|[<-|[<-|[]]]]; discriminate Hp. }
  destruct (github_avatar_logs_failed_conversion (L := raising_library)
              bob [Byte.x01] stored_world "c3d4" [Byte.x01]
              (Exn (OtherException "WandError") "bad blob")
              eq_refl Hfresh eq_refl eq_refl eq_refl)
    as (a & w' & Hrun & Hsvg & _ & _ & Hid & Hlog).
  exists a, w'. split; [exact Hrun|split; [exact Hsvg|]].
  rewrite Hlog. unfold conversion_error. rewrite Hid. reflexivity.
Defined.

Lemma create_logs_failed_conversion_witness :
  exists a w',
    create (L := raising_library) (Some alice) sample_config empty_world
      = (Ok (Custom a), w') /\
    log w' = [(ERROR, "Error: (bad blob) - Avatar PK: (None)");
              (WARNING, "There was error during avatar conversion")].
Proof.
  edestruct (create_logs_failed_conversion (L := raising_library)
               (Some alice) sample_config empty_world)
    as (w' & Hrun & _ & _ & Hid & Hlog);
    [reflexivity|reflexivity|reflexivity|].
  eexists. exists w'. split; [exact Hrun|].
  rewrite Hlog. unfold conversion_error. rewrite Hid. reflexivity.
Defined.
